(** * Signaling endpoint of [run.py]: connection registry and offer handling

    A shallow embedding of the [POST /api/offer] handler of [src/run.py]
    together with the module-level registry [pcs_map], the closed-event
    callback [handle_disconnected] and the background-task list.

    The WebRTC engine ([SmallWebRTCConnection]) is an external collaborator;
    it is an interface here (class [Engine]) and every statement is proved
    for all of its implementations.

    Requests are handled one at a time: an [await] is a plain call, and the
    [logger.info] lines, which change nothing the handler reads, are left
    out. *)

From Stdlib Require Import ZArith.
From stdpp Require Import gmap strings list fin_maps pretty.

(** ** Values of a JSON request body *)

(** The handler receives [request: dict], the decoded JSON object of the
    body.  Numbers are kept as integers: the handler only tests a value for
    truthiness and for membership among the string keys of [pcs_map]. *)
#[local] Unset Elimination Schemes.
Inductive json : Type :=
  | JNull
  | JBool (b : bool)
  | JNum (n : Z)
  | JStr (s : string)
  | JArr (l : list json)
  | JObj (l : list (string * json)).
#[local] Set Elimination Schemes.

(** Python truth value ([bool(v)]). *)
Definition truthy (v : json) : bool :=
  match v with
  | JNull => false
  | JBool b => b
  | JNum n => negb (n =? 0)%Z
  | JStr s => negb (String.eqb s "")
  | JArr l => negb (Nat.eqb (length l) 0)
  | JObj l => negb (Nat.eqb (length l) 0)
  end.

(** ** Exceptions and results *)

Inductive exn : Type :=
  | KeyError (k : json)
  | TypeError
  | AssertionError
  | EngineError (msg : string).

Inductive result (A : Type) : Type :=
  | Ok (a : A)
  | Raise (e : exn).
Arguments Ok {A} a.
Arguments Raise {A} e.

(** ** The connection engine *)

(** A handle is a Python object; [conn] is its identity. *)
Definition conn := nat.

Record IceServer := { urls : string }.

Definition ice_servers : list IceServer :=
  [ {| urls := "stun:stun.l.google.com:19302" |} ].

(** Modelled from the spec: the answer payload
    [{ sdp: string, type: string, pc_id: string }] returned by the handle's
    get-answer operation; the engine's code is not part of [run.py]. *)
Record Answer := { ans_sdp : string; ans_type : string; ans_pc_id : string }.

(** Modelled from the spec: the operations of the opaque connection object
    ([initialize], [renegotiate], [get_answer], the [pc_id] attribute); the
    class [SmallWebRTCConnection] is imported by [run.py], not defined in it.
    Every operation acts on the engine's own state [E]; the three calls may
    raise. *)
Class Engine (E : Type) := {
  construct : list IceServer -> conn -> E -> E;
  initialize : conn -> json -> json -> E -> result unit * E;
  renegotiate : conn -> json -> json -> json -> E -> result unit * E;
  get_answer : conn -> E -> result Answer * E;
  pc_id : conn -> E -> string
}.

(** Calls made into the engine, in program order. *)
Inductive call : Type :=
  | CallConstruct (ice : list IceServer) (c : conn)
  | CallInitialize (c : conn) (sdp type : json)
  | CallRenegotiate (c : conn) (sdp type restart_pc : json)
  | CallGetAnswer (c : conn).

(** ** Module-level state *)

(** The function loaded by [import_bot_file], by name. *)
Definition Callable := string.

(** [argparse.Namespace] as its attribute list. *)
Definition Namespace := list (string * json).

(** [args: argparse.Namespace = argparse.Namespace()]; [main] binds a local
    of the same name and never rebinds the global. *)
Definition args : Namespace := [].

(** A task queued with [background_tasks.add_task(func, *args)]. *)
Record task := { task_func : Callable; task_conn : conn; task_args : Namespace }.

(** Callbacks registered with [event_handler]; the program defines one. *)
Inductive handler : Type := HandleDisconnected.

Section Signaling.
Context {E : Type} `{Engine E}.

Record state := mkState {
  pcs_map : gmap string conn;           (* pcs_map: Dict[str, SmallWebRTCConnection] *)
  run_example_func : option Callable;   (* run_example_func: Optional[Callable] *)
  engine : E;                           (* state of the external engine *)
  next_conn : conn;                     (* identity of the next object created *)
  handlers : list (conn * string * handler);  (* (handle, event name, callback) *)
  background_tasks : list task;         (* tasks queued so far, oldest first *)
  calls : list call                     (* engine calls so far, oldest first *)
}.

Definition set_pcs_map (m : gmap string conn) (s : state) : state :=
  mkState m (run_example_func s) (engine s) (next_conn s) (handlers s)
          (background_tasks s) (calls s).

Definition set_engine (e : E) (s : state) : state :=
  mkState (pcs_map s) (run_example_func s) e (next_conn s) (handlers s)
          (background_tasks s) (calls s).

Definition log_call (c : call) (s : state) : state :=
  mkState (pcs_map s) (run_example_func s) (engine s) (next_conn s) (handlers s)
          (background_tasks s) (calls s ++ [c]).

(** ** A state-and-exception monad for the handler

    Effects made before an exception is raised stay in the state, as in
    Python. *)
Definition M (A : Type) : Type := state -> result A * state.

Definition ret {A} (a : A) : M A := fun s => (Ok a, s).
Definition raise {A} (e : exn) : M A := fun s => (Raise e, s).
Definition bind {A B} (m : M A) (k : A -> M B) : M B :=
  fun s => match m s with
           | (Ok a, s') => k a s'
           | (Raise e, s') => (Raise e, s')
           end.

Notation "'let!' x ':=' m 'in' k" := (bind m (fun x => k))
  (at level 10, x name, m at level 100, k at level 200).
Notation "m ';;;' k" := (bind m (fun _ => k))
  (at level 100, k at level 200, right associativity).

(** [d[k]] and [d.get(k, default)] on the request dict. *)
Definition getitem (d : gmap string json) (k : string) : M json :=
  match d !! k with
  | Some v => ret v
  | None => raise (KeyError (JStr k))
  end.

Definition dict_get (d : gmap string json) (k : string) (default : json) : json :=
  match d !! k with
  | Some v => v
  | None => default
  end.

(** [v in pcs_map]: hashing a list or a dict raises [TypeError]; the keys
    are strings, so any other value that is not a string is never found. *)
Definition in_pcs_map (v : json) : M bool :=
  fun s => match v with
           | JStr k => (Ok (bool_decide (is_Some (pcs_map s !! k))), s)
           | JArr _ | JObj _ => (Raise TypeError, s)
           | _ => (Ok false, s)
           end.

(** [pcs_map[v]] *)
Definition pcs_map_getitem (v : json) : M conn :=
  fun s => match v with
           | JStr k => match pcs_map s !! k with
                       | Some c => (Ok c, s)
                       | None => (Raise (KeyError v), s)
                       end
           | JArr _ | JObj _ => (Raise TypeError, s)
           | _ => (Raise (KeyError v), s)
           end.

(** [pcs_map[k] = c] *)
Definition pcs_map_setitem (k : string) (c : conn) : M unit :=
  fun s => (Ok tt, set_pcs_map (<[k := c]> (pcs_map s)) s).

(** [SmallWebRTCConnection(ice_servers)]: a new object. *)
Definition SmallWebRTCConnection (ice : list IceServer) : M conn :=
  fun s =>
    let c := next_conn s in
    (Ok c,
     mkState (pcs_map s) (run_example_func s) (construct ice c (engine s))
             (S c) (handlers s) (background_tasks s)
             (calls s ++ [CallConstruct ice c])).

Definition engine_call {A} (c : call) (op : E -> result A * E) : M A :=
  fun s => let s1 := log_call c s in
           let '(r, e') := op (engine s1) in (r, set_engine e' s1).

Definition do_initialize (c : conn) (sdp type : json) : M unit :=
  engine_call (CallInitialize c sdp type) (initialize c sdp type).

Definition do_renegotiate (c : conn) (sdp type restart_pc : json) : M unit :=
  engine_call (CallRenegotiate c sdp type restart_pc)
              (renegotiate c sdp type restart_pc).

Definition do_get_answer (c : conn) : M Answer :=
  engine_call (CallGetAnswer c) (get_answer c).

(** [@c.event_handler(ev)] applied to a callback. *)
Definition event_handler (c : conn) (ev : string) (h : handler) : M unit :=
  fun s => (Ok tt,
            mkState (pcs_map s) (run_example_func s) (engine s) (next_conn s)
                    (handlers s ++ [(c, ev, h)]) (background_tasks s) (calls s)).

(** [assert run_example_func is not None] *)
Definition assert_run_example_func : M Callable :=
  fun s => match run_example_func s with
           | Some f => (Ok f, s)
           | None => (Raise AssertionError, s)
           end.

(** [background_tasks.add_task(f, c, a)] *)
Definition add_task (f : Callable) (c : conn) (a : Namespace) : M unit :=
  fun s => (Ok tt,
            mkState (pcs_map s) (run_example_func s) (engine s) (next_conn s)
                    (handlers s)
                    (background_tasks s ++
                       [{| task_func := f; task_conn := c; task_args := a |}])
                    (calls s)).

(** ** The handler [offer] *)

(** The test [pc_id and pc_id in pcs_map]: [and] does not evaluate its right
    operand when the left one is falsy. *)
Definition reuse_existing (pc_id_v : json) : M bool :=
  if truthy pc_id_v then in_pcs_map pc_id_v else ret false.

Definition offer (request : gmap string json) : M Answer :=
  let pc_id_v := dict_get request "pc_id" JNull in
  let! reuse := reuse_existing pc_id_v in
  let! pipecat_connection :=
    (if reuse : bool then
       let! pipecat_connection := pcs_map_getitem pc_id_v in
       let! sdp := getitem request "sdp" in
       let! type := getitem request "type" in
       let restart_pc := dict_get request "restart_pc" (JBool false) in
       do_renegotiate pipecat_connection sdp type restart_pc ;;;
       ret pipecat_connection
     else
       let! pipecat_connection := SmallWebRTCConnection ice_servers in
       let! sdp := getitem request "sdp" in
       let! type := getitem request "type" in
       do_initialize pipecat_connection sdp type ;;;
       event_handler pipecat_connection "closed" HandleDisconnected ;;;
       let! f := assert_run_example_func in
       add_task f pipecat_connection args ;;;
       ret pipecat_connection) in
  let! answer := do_get_answer pipecat_connection in
  pcs_map_setitem (ans_pc_id answer) pipecat_connection ;;;
  ret answer.

(** ** The closed event *)

(** [pcs_map.pop(k)] and [pcs_map.pop(k, default)]: without a default an
    absent key raises; with one the default is returned and the dict is
    left as it is. *)
Definition pcs_map_pop (k : string) (default : option (option conn))
  : M (option conn) :=
  fun s => match pcs_map s !! k with
           | Some c => (Ok (Some c), set_pcs_map (delete k (pcs_map s)) s)
           | None => match default with
                     | Some d => (Ok d, s)
                     | None => (Raise (KeyError (JStr k)), s)
                     end
           end.

(** [handle_disconnected(webrtc_connection)]:
    [pcs_map.pop(webrtc_connection.pc_id, None)]. *)
Definition handle_disconnected (webrtc_connection : conn) : M unit :=
  fun s =>
    (pcs_map_pop (pc_id webrtc_connection (engine s)) (Some None) ;;; ret tt) s.

Definition run_handler (h : handler) (c : conn) : M unit :=
  match h with
  | HandleDisconnected => handle_disconnected c
  end.

(** The engine emits [ev] on handle [c]: every callback registered on [c]
    for [ev] runs, in registration order, with [c] as its argument. *)
Fixpoint run_handlers (hs : list (conn * string * handler)) (c : conn)
         (ev : string) : M unit :=
  match hs with
  | [] => ret tt
  | (c', ev', h) :: rest =>
      if bool_decide (c' = c) && String.eqb ev' ev
      then run_handler h c ;;; run_handlers rest c ev
      else run_handlers rest c ev
  end.

Definition emit (c : conn) (ev : string) : M unit :=
  fun s => run_handlers (handlers s) c ev s.

(** [n] notifications of the same event, one after the other. *)
Fixpoint emit_times (n : nat) (c : conn) (ev : string) : M unit :=
  match n with
  | O => ret tt
  | S n' => emit c ev ;;; emit_times n' c ev
  end.

(** ** The HTTP surface *)

(** The handler has no [try] and raises no HTTP exception of its own: a
    returned answer is sent with status 200 and an exception that leaves
    the handler is answered by the server with status 500. *)
Definition http_status {A} (r : result A) : nat :=
  match r with
  | Ok _ => 200%nat
  | Raise _ => 500%nat
  end.

Definition is_client_error (code : nat) : bool :=
  ((400 <=? code) && (code <? 500))%nat.

Definition is_server_error (code : nat) : bool :=
  ((500 <=? code) && (code <? 600))%nat.

(** Offers handled one after the other. *)
Fixpoint offers (requests : list (gmap string json)) (s : state)
  : list (result Answer) * state :=
  match requests with
  | [] => ([], s)
  | r :: rs => let '(a, s1) := offer r s in
               let '(as_, s2) := offers rs s1 in
               (a :: as_, s2)
  end.

(** The state when the module has been loaded and [main] has stored the
    bot function [f] (or nothing) in [run_example_func]. *)
Definition start (f : option Callable) (e : E) : state :=
  mkState ∅ f e 0 [] [] [].

(** A run of offers without [pc_id] in which every call returns an answer
    whose identifier is not yet a key of the registry. *)
Fixpoint fresh_sessions (requests : list (gmap string json)) (s : state) : Prop :=
  match requests with
  | [] => True
  | r :: rs =>
      r !! "pc_id" = None /\
      (exists a, (offer r s).1 = Ok a /\ pcs_map s !! ans_pc_id a = None) /\
      fresh_sessions rs (offer r s).2
  end.

(** The handle's [renegotiate] or [initialize] raises [e] when [offer]
    calls it on [request] in state [s]. *)
Inductive negotiation_raises (request : gmap string json) (s : state) (e : exn)
  : Prop :=
  | renegotiate_raises k c sdp type e1 :
      request !! "pc_id" = Some (JStr k) -> k <> "" ->
      pcs_map s !! k = Some c ->
      request !! "sdp" = Some sdp -> request !! "type" = Some type ->
      renegotiate c sdp type (dict_get request "restart_pc" (JBool false))
                  (engine s) = (Raise e, e1) ->
      negotiation_raises request s e
  | initialize_raises sdp type e1 :
      reuse_existing (dict_get request "pc_id" JNull) s = (Ok false, s) ->
      request !! "sdp" = Some sdp -> request !! "type" = Some type ->
      initialize (next_conn s) sdp type
                 (construct ice_servers (next_conn s) (engine s)) = (Raise e, e1) ->
      negotiation_raises request s e.

(** What a successful new-session call has done when it returns answer [a]
    in state [t], having started in [s]: the handle is the object created
    by the call. *)
Definition new_session_result (request : gmap string json) (s : state)
           (a : Answer) (t : state) : Prop :=
  let c := next_conn s in
  exists sdp type f e1,
    request !! "sdp" = Some sdp /\ request !! "type" = Some type /\
    run_example_func s = Some f /\
    initialize c sdp type (construct ice_servers c (engine s)) = (Ok tt, e1) /\
    get_answer c e1 = (Ok a, engine t) /\
    pcs_map t = <[ans_pc_id a := c]> (pcs_map s) /\
    next_conn t = S c /\
    handlers t = handlers s ++ [(c, "closed", HandleDisconnected)] /\
    background_tasks t =
      background_tasks s ++
        [{| task_func := f; task_conn := c; task_args := args |}] /\
    calls t =
      calls s ++ [CallConstruct ice_servers c; CallInitialize c sdp type;
                  CallGetAnswer c].

(** The state once the entry keyed by the identifier of handle [c] is gone
    from the registry. *)
Definition discarded (c : conn) (s : state) : state :=
  set_pcs_map (delete (pc_id c (engine s)) (pcs_map s)) s.

(** Some callback is registered on [c] for [ev]. *)
Definition registered (c : conn) (ev : string)
           (hs : list (conn * string * handler)) : bool :=
  existsb (fun r : conn * string * handler =>
             let '(c', ev', _) := r in
             bool_decide (c' = c) && String.eqb ev' ev) hs.

Definition is_construct (c : call) : bool :=
  match c with CallConstruct _ _ => true | _ => false end.

Definition is_renegotiate (c : call) : bool :=
  match c with CallRenegotiate _ _ _ _ => true | _ => false end.

(** ** Runs of the service *)

(** What happens to the service: a request to [POST /api/offer], or the
    engine reporting that handle [c] has closed. *)
Inductive event : Type :=
  | Offer (request : gmap string json)
  | Closed (c : conn).

Definition step (s : state) (ev : event) : state :=
  match ev with
  | Offer request => (offer request s).2
  | Closed c => (emit c "closed" s).2
  end.

Definition run (evs : list event) (s : state) : state := fold_left step evs s.

(** The registration and the task that the new-session branch makes for
    handle [c]. *)
Definition closed_handler (c : conn) : conn * string * handler :=
  (c, "closed", HandleDisconnected).

Definition task_for (f : Callable) (c : conn) : task :=
  {| task_func := f; task_conn := c; task_args := args |}.

(** How far a call of [offer] got, read off its two branches: nothing but
    reading the request; the renegotiation branch on the stored handle [c],
    up to [get_answer] and the final store; the new-session branch on the
    object [next_conn s], up to [initialize], the handler registration, the
    task, [get_answer] and the final store. *)
Inductive offer_effect (s t : state) : Prop :=
  | effect_none :
      t = s -> offer_effect s t
  | effect_renegotiation k c sdp type restart_pc (answered : bool)
                         (stored : option string) :
      pcs_map s !! k = Some c ->
      run_example_func t = run_example_func s ->
      next_conn t = next_conn s ->
      handlers t = handlers s ->
      background_tasks t = background_tasks s ->
      calls t = calls s ++ CallRenegotiate c sdp type restart_pc
                           :: (if answered then [CallGetAnswer c] else []) ->
      pcs_map t = match stored with
                  | Some id => <[id := c]> (pcs_map s)
                  | None => pcs_map s
                  end ->
      (is_Some stored -> answered = true) ->
      offer_effect s t
  | effect_new_session (initialized : option (json * json)) (handled : bool)
                       (queued : option Callable) (answered : bool)
                       (stored : option string) :
      run_example_func t = run_example_func s ->
      next_conn t = S (next_conn s) ->
      handlers t
        = handlers s ++ (if handled then [closed_handler (next_conn s)] else []) ->
      background_tasks t
        = background_tasks s ++ match queued with
                                | Some f => [task_for f (next_conn s)]
                                | None => []
                                end ->
      calls t
        = calls s ++ CallConstruct ice_servers (next_conn s)
                     :: match initialized with
                        | Some (sdp, type) =>
                            CallInitialize (next_conn s) sdp type
                            :: (if answered then [CallGetAnswer (next_conn s)]
                                else [])
                        | None => []
                        end ->
      pcs_map t = match stored with
                  | Some id => <[id := next_conn s]> (pcs_map s)
                  | None => pcs_map s
                  end ->
      (handled = true -> is_Some initialized) ->
      (forall f, queued = Some f -> handled = true /\ run_example_func s = Some f) ->
      (answered = true -> is_Some queued) ->
      (is_Some stored -> answered = true) ->
      offer_effect s t.

(** The handle a call is made on. *)
Definition call_conn (x : call) : conn :=
  match x with
  | CallConstruct _ c | CallInitialize c _ _
  | CallRenegotiate c _ _ _ | CallGetAnswer c => c
  end.

(** What every state of a run satisfies (see [run_consistent]). *)
Record consistent (s : state) : Prop := {
  tasks_created :
    Forall (fun t => task_conn t < next_conn s) (background_tasks s);
  tasks_distinct : NoDup (task_conn <$> background_tasks s);
  tasks_loaded :
    Forall (fun t => run_example_func s = Some (task_func t) /\
                     task_args t = args) (background_tasks s);
  handlers_closed :
    Forall (fun r => exists c, r = closed_handler c /\ c < next_conn s)
           (handlers s);
  handlers_distinct : NoDup (handlers s);
  handlers_initialized :
    forall r, r ∈ handlers s ->
              exists sdp type, CallInitialize r.1.1 sdp type ∈ calls s;
  tasks_handled :
    forall t, t ∈ background_tasks s -> closed_handler (task_conn t) ∈ handlers s;
  entries_tracked :
    forall k c, pcs_map s !! k = Some c ->
                c ∈ task_conn <$> background_tasks s;
  calls_created : Forall (fun x => call_conn x < next_conn s) (calls s);
  constructed_once :
    forall l1 l2 ice c,
      calls s = l1 ++ CallConstruct ice c :: l2 ->
      ice = ice_servers /\ Forall (fun x => call_conn x <> c) l1;
  initialized_once :
    forall l1 l2 c sdp type,
      calls s = l1 ++ CallInitialize c sdp type :: l2 ->
      CallConstruct ice_servers c ∈ l1 /\
      forall sdp' type', CallInitialize c sdp' type' ∉ l1;
  renegotiated_after_initialize :
    forall l1 l2 c sdp type restart_pc,
      calls s = l1 ++ CallRenegotiate c sdp type restart_pc :: l2 ->
      exists sdp' type', CallInitialize c sdp' type' ∈ l1;
  answered_after_initialize :
    forall l1 l2 c,
      calls s = l1 ++ CallGetAnswer c :: l2 ->
      exists sdp' type', CallInitialize c sdp' type' ∈ l1
}.

End Signaling.

Arguments state E : clear implicits.

(** ** A small engine to run the handler on

    Identifiers are given by [toy_name]; a session description must be a
    non-empty string, anything else makes [initialize] and [renegotiate]
    raise. *)
Record toy := { toy_name : conn -> string; toy_live : list conn }.

Definition toy_negotiate (sdp : json) (e : toy) : result unit * toy :=
  match sdp with
  | JStr (String _ _) => (Ok tt, e)
  | _ => (Raise (EngineError "invalid session description"), e)
  end.

#[export] Instance toy_engine : Engine toy := {|
  construct _ c e := {| toy_name := toy_name e; toy_live := c :: toy_live e |};
  initialize _ sdp _ e := toy_negotiate sdp e;
  renegotiate _ sdp _ _ e := toy_negotiate sdp e;
  get_answer c e :=
    (Ok {| ans_sdp := "v=0 answer"; ans_type := "answer";
           ans_pc_id := toy_name e c |}, e);
  pc_id c e := toy_name e c
|}.

(** An engine numbering its handles, and one that names every handle with
    the empty string. *)
Definition numbering : toy :=
  {| toy_name c := "pc-" +:+ pretty c; toy_live := [] |}.

Definition nameless : toy :=
  {| toy_name _ := ""; toy_live := [] |}.

Definition request_of (l : list (string * json)) : gmap string json :=
  list_to_map l.

Definition first_offer : gmap string json :=
  request_of [("sdp", JStr "v=0"); ("type", JStr "offer")].

Definition offer_for (k : string) : gmap string json :=
  request_of [("pc_id", JStr k); ("sdp", JStr "v=0"); ("type", JStr "offer");
              ("restart_pc", JBool true)].

(** The answer the toy engine gives for a handle named [k]. *)
Definition toy_answer (k : string) : Answer :=
  {| ans_sdp := "v=0 answer"; ans_type := "answer"; ans_pc_id := k |}.

(** States of two runs: the service after start-up, and after a first
    offer without [pc_id], under each of the two engines. *)
Definition s0 : state toy := start (Some "run_example") numbering.
Definition s1 : state toy := (offer first_offer s0).2.
Definition n0 : state toy := start (Some "run_example") nameless.
Definition n1 : state toy := (offer first_offer n0).2.

(** Requests that fail: no [sdp]; an [sdp] the toy engine refuses. *)
Definition offer_without_sdp : gmap string json :=
  request_of [("type", JStr "offer")].

Definition bad_first_offer : gmap string json :=
  request_of [("sdp", JNum 0); ("type", JStr "offer")].

Definition bad_offer_for (k : string) : gmap string json :=
  request_of [("pc_id", JStr k); ("sdp", JNum 0); ("type", JStr "offer")].

(** An engine whose handles never have an answer: [get_answer] raises. *)
Record mute := { mute_live : list conn }.

#[export] Instance mute_engine : Engine mute := {|
  construct _ c e := {| mute_live := c :: mute_live e |};
  initialize _ _ _ e := (Ok tt, e);
  renegotiate _ _ _ _ e := (Ok tt, e);
  get_answer _ e := (Raise (EngineError "no answer"), e);
  pc_id _ _ := "mute"
|}.

Definition m0 : state mute := start (Some "run_example") {| mute_live := [] |}.

(** The service before any bot function is loaded. *)
Definition idle : state toy := start None numbering.

(** A first offer, then a renegotiation of the session it opened. *)
Definition sample_run : list event :=
  [Offer first_offer; Offer (offer_for "pc-0")].

Definition offer_with_pc_id (v : json) : gmap string json :=
  request_of [("pc_id", v); ("sdp", JStr "v=0"); ("type", JStr "offer")].

Definition first_offer_with_extra : gmap string json :=
  request_of [("sdp", JStr "v=0"); ("type", JStr "offer");
              ("user", JStr "someone")].

(** * Properties of the handler *)

Section Properties.
Context {E : Type} `{Engine E}.
Implicit Types (s t : state E) (request : gmap string json) (k : string).

(** ** The branch condition *)

Lemma reuse_existing_state v s : (reuse_existing v s).2 = s.
Proof.
  unfold reuse_existing, in_pcs_map, ret.
  destruct (truthy v); [destruct v|]; reflexivity.
Qed.

Lemma reuse_existing_key k s :
  k <> "" -> is_Some (pcs_map s !! k) ->
  reuse_existing (JStr k) s = (Ok true, s).
Proof.
  intros Hk Hin. unfold reuse_existing, in_pcs_map. simpl.
  destruct (String.eqb_spec k ""); [done|]. simpl.
  by rewrite bool_decide_eq_true_2.
Qed.

Lemma reuse_existing_unknown k s :
  pcs_map s !! k = None -> reuse_existing (JStr k) s = (Ok false, s).
Proof.
  intros Hout. unfold reuse_existing, in_pcs_map, ret. simpl.
  destruct (negb _); [|done].
  rewrite bool_decide_eq_false_2; [done|]. rewrite Hout. by intros [? ?].
Qed.

Lemma reuse_existing_empty s : reuse_existing (JStr "") s = (Ok false, s).
Proof. reflexivity. Qed.

Lemma reuse_existing_absent s : reuse_existing JNull s = (Ok false, s).
Proof. reflexivity. Qed.

(** When the test holds, the value is a non-empty string key of the
    registry. *)
Lemma reuse_existing_true v s t :
  reuse_existing v s = (Ok true, t) ->
  exists k c, v = JStr k /\ k <> "" /\ pcs_map s !! k = Some c.
Proof.
  unfold reuse_existing, in_pcs_map, ret. intros Hr.
  destruct (truthy v) eqn:Ht; [|congruence].
  destruct v as [|b|n|k|l|l]; try discriminate Hr.
  injection Hr as Hin <-.
  apply bool_decide_eq_true_1 in Hin as [c Hc].
  exists k, c. repeat split; [|done].
  intros ->. discriminate Ht.
Qed.

(** ** Running the handler symbolically *)

Ltac unfold_offer :=
  unfold offer, bind, pcs_map_getitem, getitem, do_renegotiate, do_initialize,
    do_get_answer, engine_call, SmallWebRTCConnection, event_handler,
    assert_run_example_func, add_task, pcs_map_setitem, ret, raise,
    log_call, set_engine, set_pcs_map in *.

Ltac run_offer :=
  unfold_offer; simpl in *; simplify_eq/=;
  repeat (case_match; simplify_eq/=); simpl in *.

(** Goals [exists new, calls t = calls s ++ new /\ Forall P new] once the
    run is explicit. *)
Ltac extend_calls :=
  first
    [ by (exists []; rewrite app_nil_r)
    | eexists; split;
      [ rewrite <- ?app_assoc; reflexivity | by repeat constructor ] ].

(** The registry is written once, by the last statement before [return]:
    a call that raises leaves it as it was. *)
Lemma offer_raise_registry request s e t :
  offer request s = (Raise e, t) -> pcs_map t = pcs_map s.
Proof.
  intros Hrun. unfold offer, bind in Hrun.
  pose proof (reuse_existing_state (dict_get request "pc_id" JNull) s) as Hst.
  destruct (reuse_existing _ s) as [[[]|e0] s0]; simpl in Hst; subst s0;
    run_offer; done.
Qed.

Lemma dict_get_some request key v d :
  request !! key = Some v -> dict_get request key d = v.
Proof. unfold dict_get. by intros ->. Qed.

Lemma dict_get_none request key d :
  request !! key = None -> dict_get request key d = d.
Proof. unfold dict_get. by intros ->. Qed.

(** The test of [offer] on a request whose [pc_id] is a non-empty key. *)
Lemma offer_reuses request k s :
  request !! "pc_id" = Some (JStr k) -> k <> "" -> is_Some (pcs_map s !! k) ->
  reuse_existing (dict_get request "pc_id" JNull) s = (Ok true, s).
Proof.
  intros Hreq Hk Hin. rewrite (dict_get_some _ _ _ _ Hreq).
  by apply reuse_existing_key.
Qed.

(** ** Answers and the registry *)

(** C4: on every successful call, in either branch, the handle that gave
    the answer is stored in the registry under the answer's own identifier
    (an upsert of the registry as it was before the call), so the [pc_id]
    of the returned answer is a key of the registry when the response is
    returned. *)
Theorem answer_id_is_registered request s a t :
  offer request s = (Ok a, t) ->
  exists c e0,
    pcs_map t = <[ans_pc_id a := c]> (pcs_map s) /\
    pcs_map t !! ans_pc_id a = Some c /\
    get_answer c e0 = (Ok a, engine t) /\
    last (calls t) = Some (CallGetAnswer c) /\
    (c = next_conn s \/
     exists k, request !! "pc_id" = Some (JStr k) /\ pcs_map s !! k = Some c).
Proof.
  intros Hrun. unfold offer, bind in Hrun.
  pose proof (reuse_existing_state (dict_get request "pc_id" JNull) s) as Hst.
  destruct (reuse_existing _ s) as [[[]|e1] s0] eqn:Hreuse;
    simpl in Hst; subst s0; [| |discriminate Hrun].
  - apply reuse_existing_true in Hreuse as (k & c & Hv & Hk & Hc).
    assert (request !! "pc_id" = Some (JStr k)) as Hreq.
    { unfold dict_get in Hv. destruct (request !! "pc_id"); congruence. }
    rewrite Hv in Hrun. run_offer.
    eexists _, _. rewrite lookup_insert_eq, last_snoc. eauto 10.
  - run_offer.
    eexists _, _. rewrite lookup_insert_eq, last_snoc. eauto 10.
Qed.

(** ** Failures *)

(** C5: when the handle's [initialize] or [renegotiate] raises, the
    exception leaves [offer] (a 5xx response) and the registry is as it was
    before the request; the handle under construction is not stored, gets
    no closed handler and no task. *)
Theorem negotiation_error_leaves_registry request s e :
  negotiation_raises request s e ->
  (offer request s).1 = Raise e /\
  is_server_error (http_status (offer request s).1) = true /\
  pcs_map (offer request s).2 = pcs_map s /\
  handlers (offer request s).2 = handlers s /\
  background_tasks (offer request s).2 = background_tasks s.
Proof.
  intros [k c sdp ty e1 Hreq Hk Hc Hsdp Hty Hneg | sdp ty e1 Hnew Hsdp Hty Hinit].
  - assert (is_Some (pcs_map s !! k)) as Hin by eauto.
    pose proof (offer_reuses _ _ _ Hreq Hk Hin) as Hreuse.
    unfold offer, bind. rewrite Hreuse, (dict_get_some _ _ _ _ Hreq).
    unfold_offer. simpl. rewrite Hc, Hsdp, Hty. simpl. rewrite Hneg. done.
  - unfold offer, bind. rewrite Hnew.
    unfold_offer. simpl. rewrite Hsdp, Hty. simpl. rewrite Hinit. done.
Qed.

(** C3, as the code has it: a request without [sdp] or without [type]
    makes the handler raise (a [KeyError] for the first missing field,
    unless testing an unhashable [pc_id] raised before); the response is
    the server's 500, not a 4xx, and the registry, handlers and tasks are
    untouched. *)
Theorem missing_field_is_server_error request s :
  request !! "sdp" = None \/ request !! "type" = None ->
  (exists e, (offer request s).1 = Raise e) /\
  http_status (offer request s).1 = 500%nat /\
  is_client_error (http_status (offer request s).1) = false /\
  is_server_error (http_status (offer request s).1) = true /\
  ((reuse_existing (dict_get request "pc_id" JNull) s).1 <> Raise TypeError ->
   (offer request s).1 =
     Raise (KeyError (JStr (match request !! "sdp" with
                            | None => "sdp"
                            | Some _ => "type"
                            end)))) /\
  pcs_map (offer request s).2 = pcs_map s /\
  handlers (offer request s).2 = handlers s /\
  background_tasks (offer request s).2 = background_tasks s.
Proof.
  intros Hmiss.
  assert (exists e, (offer request s).1 = Raise e /\
            ((reuse_existing (dict_get request "pc_id" JNull) s).1
               <> Raise TypeError ->
             e = KeyError (JStr (match request !! "sdp" with
                                 | None => "sdp"
                                 | Some _ => "type"
                                 end))) /\
            handlers (offer request s).2 = handlers s /\
            background_tasks (offer request s).2 = background_tasks s)
    as (e & He & Hkey & Hh & Hb).
  { unfold offer, bind.
    pose proof (reuse_existing_state (dict_get request "pc_id" JNull) s) as Hst.
    destruct (reuse_existing _ s) as [[[]|e1] s0] eqn:Hreuse;
      simpl in Hst; subst s0.
    - apply reuse_existing_true in Hreuse as (k & c & Hv & Hk & Hc).
      rewrite Hv. unfold_offer. simpl. rewrite Hc.
      destruct Hmiss as [Hm|Hm]; rewrite Hm;
        [|destruct (request !! "sdp")]; simpl; eauto 10.
    - unfold_offer. simpl.
      destruct Hmiss as [Hm|Hm]; rewrite Hm;
        [|destruct (request !! "sdp")]; simpl; eauto 10.
    - simpl. exists e1. repeat split; [|done..].
      intros Hne. unfold reuse_existing, in_pcs_map, ret in Hreuse.
      destruct (truthy _); [|discriminate Hreuse].
      destruct (dict_get _ _ _); simplify_eq; done. }
  destruct (offer request s) as [r t] eqn:Hrun. simpl in *. subst r.
  repeat split; eauto.
  - intros Hne. by rewrite (Hkey Hne).
  - by apply offer_raise_registry in Hrun.
Qed.

(** ** Renegotiation *)

(** C8: on the renegotiation branch the handle found in the registry is
    asked to renegotiate with the request's [sdp], its [type] and, as
    restart flag, the request's [restart_pc] when the field is there and
    [False] when it is not; it is the only renegotiation of the call.  The
    call is the engine's [renegotiate] on the current engine state: when it
    raises, the call of [offer] raises the same exception and the engine is
    left as [renegotiate] left it; when it returns, [get_answer] is asked
    of the engine state [renegotiate] produced, and its outcome is the
    outcome of [offer]. *)
Theorem renegotiate_arguments request s k c sdp type :
  request !! "pc_id" = Some (JStr k) -> k <> "" ->
  pcs_map s !! k = Some c ->
  request !! "sdp" = Some sdp -> request !! "type" = Some type ->
  exists (flag : json) (rest : list call),
    calls (offer request s).2
      = calls s ++ CallRenegotiate c sdp type flag :: rest /\
    (forall v, request !! "restart_pc" = Some v -> flag = v) /\
    (request !! "restart_pc" = None -> flag = JBool false) /\
    Forall (fun x => is_renegotiate x = false) rest /\
    Forall (fun x => is_construct x = false) rest /\
    (forall e e1,
       renegotiate c sdp type flag (engine s) = (Raise e, e1) ->
       (offer request s).1 = Raise e /\
       engine (offer request s).2 = e1 /\ rest = []) /\
    (forall e1,
       renegotiate c sdp type flag (engine s) = (Ok tt, e1) ->
       get_answer c e1 = ((offer request s).1, engine (offer request s).2) /\
       rest = [CallGetAnswer c]).
Proof.
  intros Hreq Hk Hc Hsdp Hty.
  assert (is_Some (pcs_map s !! k)) as Hin by eauto.
  pose proof (offer_reuses _ _ _ Hreq Hk Hin) as Hreuse.
  exists (dict_get request "restart_pc" (JBool false)).
  unfold offer, bind. rewrite Hreuse, (dict_get_some _ _ _ _ Hreq).
  unfold_offer. simpl. rewrite Hc, Hsdp, Hty. simpl.
  destruct (renegotiate _ _ _ _ _) as [[[]|e1] e2]; simpl.
  - destruct (get_answer _ _) as [[a|e3] e4] eqn:Hans; simpl;
      exists [CallGetAnswer c]; rewrite <- app_assoc; simpl;
      (split_and!;
         [done
         |intros v Hv; by rewrite (dict_get_some _ _ _ _ Hv)
         |intros Hv; by rewrite (dict_get_none _ _ _ Hv)
         |by repeat constructor
         |by repeat constructor
         |intros e0 e5 Hre; discriminate Hre
         |intros e5 [= <-]; by rewrite Hans]).
  - exists []. split_and!;
      [done
      |intros v Hv; by rewrite (dict_get_some _ _ _ _ Hv)
      |intros Hv; by rewrite (dict_get_none _ _ _ Hv)
      |constructor
      |constructor
      |intros e0 e5 [= <- <-]; done
      |intros e5 Hre; discriminate Hre].
Qed.

(** One renegotiation: no object is created, no handler registered, no
    task queued, and the identifier stays in the registry. *)
Lemma renegotiation_step request k s :
  request !! "pc_id" = Some (JStr k) -> k <> "" -> is_Some (pcs_map s !! k) ->
  next_conn (offer request s).2 = next_conn s /\
  background_tasks (offer request s).2 = background_tasks s /\
  handlers (offer request s).2 = handlers s /\
  (exists new : list call,
     calls (offer request s).2 = calls s ++ new /\
     Forall (fun x => is_construct x = false) new) /\
  is_Some (pcs_map (offer request s).2 !! k).
Proof.
  intros Hreq Hk Hin.
  pose proof (offer_reuses _ _ _ Hreq Hk Hin) as Hreuse.
  destruct Hin as [c Hc].
  unfold offer, bind. rewrite Hreuse, (dict_get_some _ _ _ _ Hreq).
  unfold_offer. simpl. rewrite Hc.
  assert (is_Some (pcs_map s !! k)) as Hin by eauto.
  destruct (request !! "sdp") as [sdp|]; simpl; [|by split_and!; try extend_calls].
  destruct (request !! "type") as [ty|]; simpl; [|by split_and!; try extend_calls].
  destruct (renegotiate _ _ _ _ _) as [[[]|e1] e2]; simpl;
    [|by split_and!; try extend_calls].
  destruct (get_answer _ _) as [[a|e3] e4]; simpl;
    [|by split_and!; try extend_calls].
  split_and!; try done; try extend_calls.
  destruct (decide (ans_pc_id a = k)) as [->|Hne].
  - rewrite lookup_insert_eq. eauto.
  - by rewrite lookup_insert_ne.
Qed.

(** C2, for identifiers that pass the handler's truthiness test: offers
    whose [pc_id] is a non-empty string and a key of the registry are
    renegotiations.  Over any number of them for one identifier no handle is
    constructed, no closed handler is registered and no task is queued, and
    the identifier is still a key afterwards. *)
Theorem renegotiation_never_redispatches k requests s :
  k <> "" -> is_Some (pcs_map s !! k) ->
  Forall (fun r : gmap string json => r !! "pc_id" = Some (JStr k)) requests ->
  next_conn (offers requests s).2 = next_conn s /\
  background_tasks (offers requests s).2 = background_tasks s /\
  handlers (offers requests s).2 = handlers s /\
  (exists new : list call,
     calls (offers requests s).2 = calls s ++ new /\
     Forall (fun x => is_construct x = false) new) /\
  is_Some (pcs_map (offers requests s).2 !! k).
Proof.
  intros Hk Hin Hall. revert s Hin.
  induction Hall as [|r rs Hr _ IH]; intros s Hin; simpl.
  - repeat split; eauto. exists []. by rewrite app_nil_r.
  - destruct (renegotiation_step r k s Hr Hk Hin)
      as (Hn & Hb & Hh & (new1 & Hc1 & Hf1) & Hin1).
    destruct (offer r s) as [a s1]. simpl in *.
    destruct (IH s1 Hin1) as (Hn2 & Hb2 & Hh2 & (new2 & Hc2 & Hf2) & Hin2).
    destruct (offers rs s1) as [as_ s2]. simpl in *.
    repeat split; try congruence.
    exists (new1 ++ new2). split.
    + rewrite Hc2, Hc1. by rewrite app_assoc.
    + by apply Forall_app.
Qed.

(** ** New sessions *)

(** Whenever the test of [offer] is false the call creates an object and
    never renegotiates; if it returns, it has done all of
    [new_session_result]. *)
Lemma new_session_run request s :
  reuse_existing (dict_get request "pc_id" JNull) s = (Ok false, s) ->
  next_conn (offer request s).2 = S (next_conn s) /\
  (exists rest : list call,
     calls (offer request s).2
       = calls s ++ CallConstruct ice_servers (next_conn s) :: rest /\
     Forall (fun x => is_renegotiate x = false) rest) /\
  (forall a, (offer request s).1 = Ok a ->
             new_session_result request s a (offer request s).2).
Proof.
  intros Hnew. unfold offer, bind. rewrite Hnew. unfold_offer. simpl.
  destruct (request !! "sdp") as [sdp|] eqn:Hsdp; simpl;
    [|by split_and!; try extend_calls].
  destruct (request !! "type") as [ty|] eqn:Hty; simpl;
    [|by split_and!; try extend_calls].
  destruct (initialize _ _ _ _) as [[[]|e1] e2] eqn:Hinit; simpl;
    [|by split_and!; try extend_calls].
  destruct (run_example_func s) as [f|] eqn:Hf; simpl;
    [|by split_and!; try extend_calls].
  destruct (get_answer _ _) as [[a|e3] e4] eqn:Hans; simpl;
    [|by split_and!; try extend_calls].
  split_and!; try done; try extend_calls.
  intros a' [= <-]. unfold new_session_result. simpl.
  exists sdp, ty, f, e2. rewrite <- !app_assoc. by split_and!.
Qed.

(** C1, as the code has it: an offer whose [pc_id] is not a key of the
    registry is not rejected.  It is handled as a new session: a new handle
    is constructed, nothing is renegotiated, and when the call returns an
    answer (status 200) the handle was initialized with the request's [sdp]
    and [type], has its closed handler and its task, and is stored under the
    answer's identifier, the other entries being as before. *)
Theorem unknown_pc_id_starts_new_session request k s :
  request !! "pc_id" = Some (JStr k) -> pcs_map s !! k = None ->
  next_conn (offer request s).2 = S (next_conn s) /\
  (exists rest : list call,
     calls (offer request s).2
       = calls s ++ CallConstruct ice_servers (next_conn s) :: rest /\
     Forall (fun x => is_renegotiate x = false) rest) /\
  (forall a, (offer request s).1 = Ok a ->
             http_status (offer request s).1 = 200%nat /\
             new_session_result request s a (offer request s).2).
Proof.
  intros Hreq Hout.
  destruct (new_session_run request s) as (Hn & Hc & Hok).
  { rewrite (dict_get_some _ _ _ _ Hreq). by apply reuse_existing_unknown. }
  split_and!; try done.
  intros a Ha. split; [by rewrite Ha | by apply Hok].
Qed.

(** C10: an offer whose [pc_id] is the empty string takes the new-session
    branch whatever the registry holds, the empty string being falsy: the
    test is false, a new handle is constructed, nothing is renegotiated,
    and a call that returns has initialized the handle and queued its
    task. *)
Theorem empty_pc_id_starts_new_session request s :
  request !! "pc_id" = Some (JStr "") ->
  reuse_existing (dict_get request "pc_id" JNull) s = (Ok false, s) /\
  next_conn (offer request s).2 = S (next_conn s) /\
  (exists rest : list call,
     calls (offer request s).2
       = calls s ++ CallConstruct ice_servers (next_conn s) :: rest /\
     Forall (fun x => is_renegotiate x = false) rest) /\
  (forall a, (offer request s).1 = Ok a ->
             new_session_result request s a (offer request s).2).
Proof.
  intros Hreq.
  assert (reuse_existing (dict_get request "pc_id" JNull) s = (Ok false, s))
    as Hnew by by rewrite (dict_get_some _ _ _ _ Hreq).
  split; [done|]. by apply new_session_run.
Qed.

(** ** Closed notifications *)

Lemma discarded_idemp c s : discarded c (discarded c s) = discarded c s.
Proof. unfold discarded, set_pcs_map. simpl. by rewrite delete_delete_eq. Qed.

Lemma discarded_absent c s :
  pcs_map s !! pc_id c (engine s) = None -> discarded c s = s.
Proof.
  intros Hout. unfold discarded, set_pcs_map. rewrite (delete_id _ _ Hout).
  by destruct s.
Qed.

(** The callback never raises: it pops with a default. *)
Lemma handle_disconnected_run c s :
  handle_disconnected c s = (Ok tt, discarded c s).
Proof.
  unfold handle_disconnected, bind, pcs_map_pop, ret.
  destruct (pcs_map s !! pc_id c (engine s)) eqn:Hk; [done|].
  by rewrite (discarded_absent _ _ Hk).
Qed.

Lemma run_handlers_run hs c ev s :
  run_handlers hs c ev s
    = (Ok tt, if registered c ev hs then discarded c s else s).
Proof.
  revert s. induction hs as [|[[c' ev'] h] hs IH]; intros s; [done|].
  simpl. destruct (bool_decide (c' = c) && String.eqb ev' ev); simpl; [|done].
  unfold bind. destruct h. simpl. rewrite handle_disconnected_run, IH.
  destruct (registered c ev hs); [by rewrite discarded_idemp|done].
Qed.

Lemma emit_run c ev s :
  emit c ev s = (Ok tt, if registered c ev (handlers s) then discarded c s else s).
Proof. apply run_handlers_run. Qed.

Lemma registered_elem c ev h hs :
  (c, ev, h) ∈ hs -> registered c ev hs = true.
Proof.
  intros Hin. unfold registered. apply existsb_exists.
  exists (c, ev, h). split; [by apply list_elem_of_In|].
  rewrite bool_decide_eq_true_2 by done. simpl. apply String.eqb_refl.
Qed.

(** Any number of notifications ends in [s] or in [discarded c s]. *)
Lemma emit_times_run n c ev s :
  emit_times n c ev s
    = (Ok tt, match n with
              | O => s
              | S _ => if registered c ev (handlers s) then discarded c s else s
              end).
Proof.
  revert s. induction n as [|n IH]; intros s; [done|].
  simpl. unfold bind. rewrite emit_run, IH.
  destruct n; [done|].
  destruct (registered c ev (handlers s)) eqn:Hreg; simpl; rewrite Hreg;
    [by rewrite discarded_idemp|done].
Qed.

(** C6: on the new-session branch, once the new handle is initialized, the
    call registers [handle_disconnected] for the closed event on that
    handle; whenever the event fires with the registration in place, the
    entry keyed by the handle's own [pc_id] attribute (read from the handle,
    the request is not consulted) is removed from the registry. *)
Theorem closed_handler_removes_own_entry request s sdp type e1 :
  reuse_existing (dict_get request "pc_id" JNull) s = (Ok false, s) ->
  request !! "sdp" = Some sdp -> request !! "type" = Some type ->
  initialize (next_conn s) sdp type
             (construct ice_servers (next_conn s) (engine s)) = (Ok tt, e1) ->
  handlers (offer request s).2
    = handlers s ++ [(next_conn s, "closed", HandleDisconnected)] /\
  forall u,
    (next_conn s, "closed", HandleDisconnected) ∈ handlers u ->
    (emit (next_conn s) "closed" u).1 = Ok tt /\
    pcs_map (emit (next_conn s) "closed" u).2
      = delete (pc_id (next_conn s) (engine u)) (pcs_map u) /\
    pcs_map (emit (next_conn s) "closed" u).2
      !! pc_id (next_conn s) (engine u) = None.
Proof.
  intros Hnew Hsdp Hty Hinit. split.
  - unfold offer, bind. rewrite Hnew. unfold_offer. simpl.
    rewrite Hsdp, Hty. simpl. rewrite Hinit. simpl.
    destruct (run_example_func s); simpl; [|done].
    by destruct (get_answer _ _) as [[a|e3] e4].
  - intros u Hin. rewrite emit_run, (registered_elem _ _ _ _ Hin). simpl.
    split_and!; [done..|]. apply lookup_delete_eq.
Qed.

(** C7: closed notifications for one handle, however many, are handled
    without raising, and all together they do what a single one does:
    nothing, or the removal of the one entry keyed by the handle's
    identifier; every other entry stays, and popping an absent key changes
    nothing. *)
Theorem cleanup_idempotent n c s :
  (emit_times n c "closed" s).1 = Ok tt /\
  emit_times (S n) c "closed" s = emit c "closed" s /\
  ((emit_times n c "closed" s).2 = s \/
   (emit_times n c "closed" s).2 = discarded c s) /\
  size (pcs_map s) <= S (size (pcs_map (emit_times n c "closed" s).2)) /\
  (forall k, k <> pc_id c (engine s) ->
             pcs_map (emit_times n c "closed" s).2 !! k = pcs_map s !! k) /\
  (handle_disconnected c s).1 = Ok tt /\
  (pcs_map s !! pc_id c (engine s) = None ->
   handle_disconnected c s = (Ok tt, s)).
Proof.
  assert (size (pcs_map s) <= S (size (pcs_map (discarded c s)))) as Hsize.
  { unfold discarded. simpl. rewrite map_size_delete.
    destruct (pcs_map s !! _); simpl; lia. }
  assert (forall k, k <> pc_id c (engine s) ->
                    pcs_map (discarded c s) !! k = pcs_map s !! k) as Hframe.
  { intros k Hk. unfold discarded. simpl. by rewrite lookup_delete_ne. }
  rewrite !emit_times_run, emit_run, handle_disconnected_run. simpl.
  split_and!; try done.
  - destruct n; [by left|]. destruct (registered _ _ _); [by right|by left].
  - destruct n; [lia|]. destruct (registered _ _ _); [done|lia].
  - intros k Hk. destruct n; [done|].
    destruct (registered _ _ _); [by apply Hframe|done].
  - intros Hout. by rewrite discarded_absent.
Qed.

(** ** Runs of new sessions *)

(** C9: in a run of offers without [pc_id] in which every call returns and
    the engine gives each new handle an identifier that is not a key of the
    registry at that moment, call number [i] creates the handle
    [next_conn s + i] and stores it under its own, new identifier: the
    identifiers are pairwise distinct, the earlier entries are untouched,
    and registry size, object count and task list grow by one per call. *)
Theorem fresh_sessions_grow requests s :
  fresh_sessions requests s ->
  exists answers : list Answer,
    (offers requests s).1 = Ok <$> answers /\
    length answers = length requests /\
    NoDup (ans_pc_id <$> answers) /\
    (forall i a, answers !! i = Some a ->
       pcs_map s !! ans_pc_id a = None /\
       pcs_map (offers requests s).2 !! ans_pc_id a = Some (next_conn s + i)) /\
    (forall k, k ∉ (ans_pc_id <$> answers) ->
       pcs_map (offers requests s).2 !! k = pcs_map s !! k) /\
    size (pcs_map (offers requests s).2) = size (pcs_map s) + length requests /\
    next_conn (offers requests s).2 = next_conn s + length requests /\
    exists new_tasks : list task,
      background_tasks (offers requests s).2 = background_tasks s ++ new_tasks /\
      task_conn <$> new_tasks = seq (next_conn s) (length requests).
Proof.
  revert s. induction requests as [|r rs IH]; intros s Hfresh.
  - exists []. simpl. split_and!; try done; try lia.
    + constructor.
    + exists []. by rewrite app_nil_r.
  - destruct Hfresh as (Hreq & (a & Ha & Hnone) & Hrest).
    destruct (new_session_run r s) as (_ & _ & Hok).
    { by rewrite (dict_get_none _ _ _ Hreq). }
    specialize (Hok a Ha).
    destruct Hok as (sdp & ty & f & e1 & _ & _ & _ & _ & _ & Hmap & Hnext & _
                     & Htasks & _).
    destruct (IH _ Hrest)
      as (answers & Hans & Hlen & Hnodup & Hstored & Hframe & Hsize & Hn
          & new_tasks & Hbt & Hconns).
    simpl. destruct (offer r s) as [r1 s1]. simpl in *. subst r1.
    destruct (offers rs s1) as [rest t]. simpl in *. subst rest.
    assert (ans_pc_id a ∉ ans_pc_id <$> answers) as Hnotin.
    { intros Hin. apply list_elem_of_fmap in Hin as (a' & Heq & Hin).
      apply list_elem_of_lookup in Hin as [i Hi].
      destruct (Hstored i a' Hi) as [Hn1 _].
      rewrite <- Heq, Hmap, lookup_insert_eq in Hn1. discriminate Hn1. }
    exists (a :: answers). split_and!.
    + done.
    + simpl. by rewrite Hlen.
    + simpl. by constructor.
    + intros [|i] a0 Hi; simpl in Hi.
      * injection Hi as <-. split; [done|].
        etrans; [by apply Hframe|].
        rewrite Hmap, lookup_insert_eq. f_equal. lia.
      * destruct (Hstored i a0 Hi) as [Hn1 Hs1].
        rewrite Hmap in Hn1. apply lookup_insert_None in Hn1 as [Hn1 _].
        split; [done|]. etrans; [exact Hs1|]. rewrite Hnext. f_equal. lia.
    + intros k Hk. simpl in Hk. apply not_elem_of_cons in Hk as [Hne Hk].
      etrans; [by apply Hframe|]. rewrite Hmap. by rewrite lookup_insert_ne.
    + rewrite Hsize, Hmap, (map_size_insert_None _ _ _ Hnone). lia.
    + rewrite Hn, Hnext. lia.
    + eexists (_ :: new_tasks). split.
      * rewrite Hbt, Htasks, <- app_assoc. done.
      * rewrite fmap_cons. simpl. f_equal. etrans; [exact Hconns|].
        by rewrite Hnext.
Qed.

(** ** Every call of [offer], whatever its outcome *)

Ltac effect_side :=
  simpl; rewrite <- ?app_assoc, ?app_nil_r; simpl; eauto; try done;
  try (by intros [? ?]); try (by intros ? [= <-]); try (by intros [= <-]).

Lemma offer_has_effect request s : offer_effect s (offer request s).2.
Proof.
  unfold offer, bind.
  pose proof (reuse_existing_state (dict_get request "pc_id" JNull) s) as Hst.
  destruct (reuse_existing _ s) as [[[]|e0] s0] eqn:Hreuse;
    simpl in Hst; subst s0; [| |by apply effect_none].
  - apply reuse_existing_true in Hreuse as (k & c & Hv & Hk & Hc).
    rewrite Hv. unfold_offer. simpl. rewrite Hc.
    destruct (request !! "sdp") as [sdp|]; simpl; [|by apply effect_none].
    destruct (request !! "type") as [ty|]; simpl; [|by apply effect_none].
    destruct (renegotiate _ _ _ _ _) as [[[]|e1] e2]; simpl.
    + destruct (get_answer _ _) as [[a|e3] e4]; simpl.
      * eapply (effect_renegotiation _ _ k c sdp ty _ true (Some (ans_pc_id a)));
          effect_side.
      * eapply (effect_renegotiation _ _ k c sdp ty _ true None); effect_side.
    + eapply (effect_renegotiation _ _ k c sdp ty _ false None); effect_side.
  - unfold_offer. simpl.
    destruct (request !! "sdp") as [sdp|]; simpl;
      [|eapply (effect_new_session _ _ None false None false None);
        effect_side].
    destruct (request !! "type") as [ty|]; simpl;
      [|eapply (effect_new_session _ _ None false None false None);
        effect_side].
    destruct (initialize _ _ _ _) as [[[]|e1] e2]; simpl;
      [|eapply (effect_new_session _ _ (Some (sdp, ty)) false None false None);
        effect_side].
    destruct (run_example_func s) as [f|] eqn:Hf; simpl;
      [|eapply (effect_new_session _ _ (Some (sdp, ty)) true None false None);
        effect_side].
    destruct (get_answer _ _) as [[a|e3] e4]; simpl.
    + eapply (effect_new_session _ _ (Some (sdp, ty)) true (Some f) true
                (Some (ans_pc_id a))); effect_side.
    + eapply (effect_new_session _ _ (Some (sdp, ty)) true (Some f) true None);
        effect_side.
Qed.

(** ** The invariant of runs *)

Lemma consistent_start f (e : E) : consistent (start f e).
Proof.
  split; simpl; try (by constructor); try (by intros ? ?%elem_of_nil);
    try (by intros [] ?); try (by intros [] ? ? ?); try (by intros [] ? ? ? ?);
    try (by intros [] ? ? ? ? ?).
Qed.

(** A state that differs only by a smaller registry is consistent too. *)
Lemma consistent_registry s t :
  consistent s ->
  run_example_func t = run_example_func s -> next_conn t = next_conn s ->
  handlers t = handlers s -> background_tasks t = background_tasks s ->
  calls t = calls s ->
  (forall k c, pcs_map t !! k = Some c -> pcs_map s !! k = Some c) ->
  consistent t.
Proof.
  intros [] Hf Hn Hh Hb Hc Hsub.
  split; rewrite ?Hf, ?Hn, ?Hh, ?Hb, ?Hc; eauto.
Qed.

Lemma emit_consistent c ev s : consistent s -> consistent (emit c ev s).2.
Proof.
  intros Hs. rewrite emit_run. simpl.
  destruct (registered c ev (handlers s)); [|done].
  apply (consistent_registry s); try done.
  intros k c' Hk. simpl in Hk. by apply lookup_delete_Some in Hk as [_ Hk].
Qed.

Lemma entry_task s k c :
  consistent s -> pcs_map s !! k = Some c ->
  exists tk : task, tk ∈ background_tasks s /\ task_conn tk = c.
Proof.
  intros Hs Hk. apply (entries_tracked s Hs) in Hk.
  apply list_elem_of_fmap in Hk as (tk & -> & Ht). eauto.
Qed.

Lemma entry_created s k c :
  consistent s -> pcs_map s !! k = Some c -> c < next_conn s.
Proof.
  intros Hs Hk. destruct (entry_task s k c Hs Hk) as (tk & Ht & <-).
  pose proof (tasks_created s Hs) as Hall.
  rewrite Forall_forall in Hall. by apply Hall.
Qed.

Lemma entry_initialized s k c :
  consistent s -> pcs_map s !! k = Some c ->
  exists sdp type, CallInitialize c sdp type ∈ calls s.
Proof.
  intros Hs Hk. destruct (entry_task s k c Hs Hk) as (tk & Ht & <-).
  apply (tasks_handled s Hs) in Ht.
  by apply (handlers_initialized s Hs) in Ht.
Qed.

(** Where an element of an extended list lies. *)
Lemma snoc_split {A} (l new l1 l2 : list A) x :
  l ++ new = l1 ++ x :: l2 ->
  (exists l2', l = l1 ++ x :: l2') \/
  (exists n1, l1 = l ++ n1 /\ new = n1 ++ x :: l2).
Proof.
  intros Heq. apply app_eq_app in Heq as [m [[-> Hm]|[-> Hm]]].
  - destruct m as [|y m]; simpl in Hm.
    + right. exists []. rewrite !app_nil_r. by split.
    + injection Hm as <- _. left. eauto.
  - right. eauto.
Qed.

Lemma renegotiation_consistent s t k c sdp type restart_pc answered stored :
  consistent s ->
  pcs_map s !! k = Some c ->
  run_example_func t = run_example_func s ->
  next_conn t = next_conn s ->
  handlers t = handlers s ->
  background_tasks t = background_tasks s ->
  calls t = calls s ++ CallRenegotiate c sdp type restart_pc
                       :: (if answered : bool then [CallGetAnswer c] else []) ->
  pcs_map t = match stored with
              | Some id => <[id := c]> (pcs_map s)
              | None => pcs_map s
              end ->
  consistent t.
Proof.
  intros Hs Hk Hf Hn Hh Hb Hcalls Hmap.
  pose proof (entry_created s k c Hs Hk) as Hlt.
  pose proof (entry_initialized s k c Hs Hk) as (sdp0 & ty0 & Hinit).
  destruct Hs. split; rewrite ?Hf, ?Hn, ?Hh, ?Hb; try done.
  - intros r Hr. destruct (handlers_initialized0 r Hr) as (sdp1 & ty1 & Hin).
    exists sdp1, ty1. rewrite Hcalls. apply elem_of_app. by left.
  - intros k' c' Hk'. rewrite Hmap in Hk'. destruct stored as [id|]; [|eauto].
    apply lookup_insert_Some in Hk' as [[_ <-]|[_ Hk']]; eauto.
  - rewrite Hcalls. apply Forall_app. split; [done|].
    destruct answered; repeat constructor; done.
  - intros l1 l2 ice c' Heq. rewrite Hcalls in Heq.
    apply snoc_split in Heq as [[l2' Heq]|[n1 [-> Heq]]]; [eauto|].
    destruct answered; repeat (destruct n1 as [|? n1]; simplify_eq/=).
  - intros l1 l2 c' sdp' ty' Heq. rewrite Hcalls in Heq.
    apply snoc_split in Heq as [[l2' Heq]|[n1 [-> Heq]]]; [eauto|].
    destruct answered; repeat (destruct n1 as [|? n1]; simplify_eq/=).
  - intros l1 l2 c' sdp' ty' r' Heq. rewrite Hcalls in Heq.
    apply snoc_split in Heq as [[l2' Heq]|[n1 [-> Heq]]]; [eauto|].
    destruct answered; repeat (destruct n1 as [|? n1]; simplify_eq/=);
      exists sdp0, ty0; by rewrite app_nil_r.
  - intros l1 l2 c' Heq. rewrite Hcalls in Heq.
    apply snoc_split in Heq as [[l2' Heq]|[n1 [-> Heq]]]; [eauto|].
    destruct answered; repeat (destruct n1 as [|? n1]; simplify_eq/=).
    exists sdp0, ty0. apply elem_of_app. by left.
Qed.

Lemma new_session_consistent s t initialized handled queued answered stored :
  consistent s ->
  run_example_func t = run_example_func s ->
  next_conn t = S (next_conn s) ->
  handlers t
    = handlers s ++ (if handled : bool then [closed_handler (next_conn s)]
                     else []) ->
  background_tasks t
    = background_tasks s ++ match queued with
                            | Some f => [task_for f (next_conn s)]
                            | None => []
                            end ->
  calls t
    = calls s ++ CallConstruct ice_servers (next_conn s)
                 :: match initialized with
                    | Some (sdp, type) =>
                        CallInitialize (next_conn s) sdp type
                        :: (if answered : bool
                            then [CallGetAnswer (next_conn s)] else [])
                    | None => []
                    end ->
  pcs_map t = match stored with
              | Some id => <[id := next_conn s]> (pcs_map s)
              | None => pcs_map s
              end ->
  (handled = true -> is_Some initialized) ->
  (forall f, queued = Some f -> handled = true /\ run_example_func s = Some f) ->
  (answered = true -> is_Some queued) ->
  (is_Some stored -> answered = true) ->
  consistent t.
Proof.
  intros Hs Hf Hn Hh Hb Hcalls Hmap Hhandled Hqueued Hanswered Hstored.
  assert (forall c, c < next_conn s -> c <> next_conn s) as Hfresh by (intros; lia).
  destruct Hs. split; rewrite ?Hf, ?Hn.
  - rewrite Hb. apply Forall_app. split.
    + eapply Forall_impl; [exact tasks_created0|]. simpl. intros; lia.
    + destruct queued; repeat constructor; simpl; lia.
  - rewrite Hb, fmap_app. apply NoDup_app. split_and!; [done| |].
    + intros c Hc Hnew. apply list_elem_of_fmap in Hc as (tk & -> & Htk).
      rewrite Forall_forall in tasks_created0.
      specialize (tasks_created0 tk Htk).
      destruct queued; simpl in Hnew;
        [apply list_elem_of_singleton in Hnew; lia|by apply elem_of_nil in Hnew].
    + destruct queued; simpl; repeat constructor. by intros ?%elem_of_nil.
  - rewrite Hb. apply Forall_app. split; [done|].
    destruct queued as [f|] eqn:Hq; repeat constructor.
    simpl. by destruct (Hqueued f eq_refl) as [_ ->].
  - rewrite Hh. apply Forall_app. split.
    + eapply Forall_impl; [exact handlers_closed0|]. simpl.
      intros r (c & -> & Hc).
      exists c. split; [done|lia].
    + destruct handled; repeat constructor. exists (next_conn s). split; [done|lia].
  - rewrite Hh. apply NoDup_app. split_and!; [done| |].
    + intros r Hr Hnew. rewrite Forall_forall in handlers_closed0.
      destruct (handlers_closed0 r Hr) as (c & -> & Hc).
      destruct handled; simpl in Hnew;
        [|by apply elem_of_nil in Hnew].
      apply list_elem_of_singleton in Hnew. injection Hnew as ->. lia.
    + destruct handled; repeat constructor. by intros ?%elem_of_nil.
  - intros r Hr. rewrite Hh in Hr. rewrite Hcalls.
    apply elem_of_app in Hr as [Hr|Hr].
    + destruct (handlers_initialized0 r Hr) as (sdp1 & ty1 & Hin).
      exists sdp1, ty1. apply elem_of_app. by left.
    + destruct handled; [|by apply elem_of_nil in Hr].
      apply list_elem_of_singleton in Hr as ->.
      destruct (Hhandled eq_refl) as [[sdp1 ty1] ->].
      exists sdp1, ty1. apply elem_of_app. right. simpl.
      apply elem_of_cons. right. apply elem_of_cons. by left.
  - intros tk Htk. rewrite Hb in Htk. rewrite Hh.
    apply elem_of_app in Htk as [Htk|Htk].
    + apply elem_of_app. left. eauto.
    + destruct queued as [f|] eqn:Hq; [|by apply elem_of_nil in Htk].
      apply list_elem_of_singleton in Htk as ->.
      destruct (Hqueued f eq_refl) as [-> _].
      apply elem_of_app. right. simpl. by apply list_elem_of_singleton.
  - intros k c Hk. rewrite Hb, fmap_app. rewrite Hmap in Hk.
    destruct stored as [id|].
    + apply lookup_insert_Some in Hk as [[_ <-]|[_ Hk]].
      * destruct (Hanswered (Hstored (ltac:(eauto)))) as [f ->].
        apply elem_of_app. right. simpl. by apply list_elem_of_singleton.
      * apply elem_of_app. left. eauto.
    + apply elem_of_app. left. eauto.
  - rewrite Hcalls. apply Forall_app. split.
    + eapply Forall_impl; [exact calls_created0|]. simpl. intros; lia.
    + destruct initialized as [[sdp1 ty1]|]; [destruct answered|];
        repeat constructor; simpl; lia.
  - intros l1 l2 ice c Heq. rewrite Hcalls in Heq.
    apply snoc_split in Heq as [[l2' Heq]|[n1 [-> Heq]]]; [eauto|].
    destruct n1 as [|y n1]; simplify_eq/=.
    + split; [done|]. rewrite app_nil_r.
      eapply Forall_impl; [exact calls_created0|]. simpl. intros; lia.
    + destruct initialized as [[sdp1 ty1]|]; [destruct answered|];
        repeat (destruct n1 as [|? n1]; simplify_eq/=).
  - intros l1 l2 c sdp1 ty1 Heq. rewrite Hcalls in Heq.
    apply snoc_split in Heq as [[l2' Heq]|[n1 [-> Heq]]]; [eauto|].
    destruct initialized as [[sdp2 ty2]|]; [destruct answered|];
      repeat (destruct n1 as [|? n1]; simplify_eq/=).
    all: split; [apply elem_of_app; right; by apply list_elem_of_singleton|].
    all: intros sdp' ty' Hin; apply elem_of_app in Hin as [Hin|Hin];
      [|apply list_elem_of_singleton in Hin; discriminate Hin].
    all: rewrite Forall_forall in calls_created0;
      specialize (calls_created0 _ Hin); simpl in calls_created0; lia.
  - intros l1 l2 c sdp1 ty1 r1 Heq. rewrite Hcalls in Heq.
    apply snoc_split in Heq as [[l2' Heq]|[n1 [-> Heq]]]; [eauto|].
    destruct initialized as [[sdp2 ty2]|]; [destruct answered|];
      repeat (destruct n1 as [|? n1]; simplify_eq/=).
  - intros l1 l2 c Heq. rewrite Hcalls in Heq.
    apply snoc_split in Heq as [[l2' Heq]|[n1 [-> Heq]]]; [eauto|].
    destruct initialized as [[sdp2 ty2]|]; [destruct answered|];
      repeat (destruct n1 as [|? n1]; simplify_eq/=).
    exists sdp2, ty2. apply elem_of_app. right.
    apply elem_of_cons. right. by apply list_elem_of_singleton.
Qed.

Lemma offer_consistent request s : consistent s -> consistent (offer request s).2.
Proof.
  intros Hs. destruct (offer_has_effect request s) as [->| |]; [done|..].
  - by eapply renegotiation_consistent.
  - by eapply new_session_consistent.
Qed.

Lemma run_preserves evs s : consistent s -> consistent (run evs s).
Proof.
  revert s. induction evs as [|ev evs IH]; intros s Hs; [done|].
  simpl. apply IH. destruct ev as [request|c]; simpl.
  - by apply offer_consistent.
  - by apply emit_consistent.
Qed.

Lemma run_consistent evs f (e : E) : consistent (run evs (start f e)).
Proof. apply run_preserves, consistent_start. Qed.

Lemma offer_keeps_function request s :
  run_example_func (offer request s).2 = run_example_func s.
Proof. by destruct (offer_has_effect request s) as [->| |]. Qed.

Lemma emit_keeps_function c ev s :
  run_example_func (emit c ev s).2 = run_example_func s.
Proof. rewrite emit_run. simpl. by destruct (registered _ _ _). Qed.

Lemma run_keeps_function evs s :
  run_example_func (run evs s) = run_example_func s.
Proof.
  revert s. induction evs as [|ev evs IH]; intros s; [done|].
  simpl. rewrite IH. destruct ev; simpl;
    [apply offer_keeps_function|apply emit_keeps_function].
Qed.

(** ** What holds in every run *)

(** Since the service started, whatever offers and closed events came in:
    no two queued tasks are for the same handle, and every task is for a
    handle the service created, runs the loaded bot function and gets the
    empty [Namespace] (the module-level [args], which [main] never
    rebinds). *)
Theorem task_queued_once_per_handle evs f (e : E) :
  NoDup (task_conn <$> background_tasks (run evs (start f e))) /\
  Forall (fun tk => f = Some (task_func tk) /\ task_args tk = [] /\
                    task_conn tk < next_conn (run evs (start f e)))
         (background_tasks (run evs (start f e))).
Proof.
  pose proof (run_consistent evs f e) as Hs.
  pose proof (run_keeps_function evs (start f e)) as Hf. simpl in Hf.
  split; [apply (tasks_distinct _ Hs)|].
  pose proof (tasks_loaded _ Hs) as Hl. pose proof (tasks_created _ Hs) as Hc.
  rewrite Forall_forall in Hl, Hc. apply Forall_forall. intros tk Htk.
  destruct (Hl tk Htk) as [Hfun Hargs]. rewrite Hf in Hfun.
  split_and!; [done|by rewrite Hargs|by apply Hc].
Qed.



(** The calls into the engine come in lifecycle order: a handle is
    constructed once, with the fixed ICE servers and before any other call
    on it; it is initialized once, after its construction; it is
    renegotiated or asked for its answer only after its initialization. *)
Theorem engine_calls_in_order evs f (e : E) l1 x l2 :
  calls (run evs (start f e)) = l1 ++ x :: l2 ->
  match x with
  | CallConstruct ice c =>
      ice = ice_servers /\ Forall (fun y => call_conn y <> c) l1
  | CallInitialize c _ _ =>
      CallConstruct ice_servers c ∈ l1 /\
      forall sdp type, CallInitialize c sdp type ∉ l1
  | CallRenegotiate c _ _ _ | CallGetAnswer c =>
      exists sdp type, CallInitialize c sdp type ∈ l1
  end.
Proof.
  intros Heq. pose proof (run_consistent evs f e) as Hs.
  destruct x as [ice c|c sdp ty|c sdp ty r|c].
  - by apply (constructed_once _ Hs _ _ _ _ Heq).
  - by apply (initialized_once _ Hs _ _ _ _ _ Heq).
  - by apply (renegotiated_after_initialize _ Hs _ _ _ _ _ _ Heq).
  - by apply (answered_after_initialize _ Hs _ _ _ Heq).
Qed.

(** ** More on single calls *)

(** A call of [offer] never removes a registry entry: every key stays, at
    most one key is written, and the registry grows by at most one. *)
Theorem offer_only_adds request s :
  (forall k, is_Some (pcs_map s !! k) ->
             is_Some (pcs_map (offer request s).2 !! k)) /\
  size (pcs_map s) <= size (pcs_map (offer request s).2) /\
  size (pcs_map (offer request s).2) <= S (size (pcs_map s)) /\
  exists id, forall k, k <> id ->
                       pcs_map (offer request s).2 !! k = pcs_map s !! k.
Proof.
  assert (forall (m : gmap string conn) key c,
            (forall k, is_Some (m !! k) -> is_Some (<[key := c]> m !! k)) /\
            size m <= size (<[key := c]> m) /\
            size (<[key := c]> m) <= S (size m) /\
            exists id', forall k, k <> id' -> <[key := c]> m !! k = m !! k)
    as Hins.
  { intros m key c. split_and!.
    - intros k Hk. destruct (decide (key = k)) as [->|Hne].
      + rewrite lookup_insert_eq. eauto.
      + by rewrite lookup_insert_ne.
    - rewrite map_size_insert. destruct (m !! key); simpl; lia.
    - rewrite map_size_insert. destruct (m !! key); simpl; lia.
    - exists key. intros k Hk. by rewrite lookup_insert_ne. }
  assert (forall m : gmap string conn,
            (forall k, is_Some (m !! k) -> is_Some (m !! k)) /\
            size m <= size m /\ size m <= S (size m) /\
            exists id' : string, forall k, k <> id' -> m !! k = m !! k)
    as Hsame.
  { intros m. split_and!; try done; try lia. by exists "". }
  destruct (offer_has_effect request s)
    as [->|k c sdp ty r answered stored _ _ _ _ _ _ Hmap _
        |initialized handled queued answered stored _ _ _ _ _ Hmap _ _ _ _];
    [apply Hsame|..]; rewrite Hmap; destruct stored; auto.
Qed.

(** A successful renegotiation stores the existing handle under the
    answer's identifier: the handle stays reachable under the requested
    key, and when the answer carries that same key the registry is exactly
    as before. *)
Theorem renegotiation_keeps_handle request s k c a t :
  request !! "pc_id" = Some (JStr k) -> k <> "" ->
  pcs_map s !! k = Some c ->
  offer request s = (Ok a, t) ->
  pcs_map t !! k = Some c /\
  pcs_map t !! ans_pc_id a = Some c /\
  (ans_pc_id a = k -> pcs_map t = pcs_map s) /\
  next_conn t = next_conn s.
Proof.
  intros Hreq Hk Hc Hrun.
  assert (is_Some (pcs_map s !! k)) as Hin by eauto.
  pose proof (offer_reuses _ _ _ Hreq Hk Hin) as Hreuse.
  unfold offer, bind in Hrun.
  rewrite Hreuse, (dict_get_some _ _ _ _ Hreq) in Hrun.
  unfold_offer. simpl in Hrun. rewrite Hc in Hrun.
  destruct (request !! "sdp") as [sdp|]; simpl in Hrun; [|discriminate Hrun].
  destruct (request !! "type") as [ty|]; simpl in Hrun; [|discriminate Hrun].
  destruct (renegotiate _ _ _ _ _) as [[[]|e1] e2]; simpl in Hrun;
    [|discriminate Hrun].
  destruct (get_answer _ _) as [[a'|e3] e4]; simpl in Hrun;
    [|discriminate Hrun].
  injection Hrun as <- <-. simpl. split_and!; [| |by intros ->; apply insert_id|done].
  - destruct (decide (ans_pc_id a' = k)) as [->|Hne].
    + apply lookup_insert_eq.
    + by rewrite lookup_insert_ne.
  - apply lookup_insert_eq.
Qed.

(** A [pc_id] that is a non-empty list or object cannot be looked up in a
    dict: the membership test raises [TypeError] before anything else
    happens, and the whole state is as before. *)
Theorem unhashable_pc_id_raises request s v :
  request !! "pc_id" = Some v ->
  (exists x l, v = JArr (x :: l)) \/ (exists x l, v = JObj (x :: l)) ->
  offer request s = (Raise TypeError, s).
Proof.
  intros Hreq Hv. unfold offer, bind. rewrite (dict_get_some _ _ _ _ Hreq).
  by destruct Hv as [(x & l & ->)|(x & l & ->)].
Qed.

(** A [pc_id] that is falsy ([null], [false], [0], the empty string, list
    or object), or that is a boolean or a number, is treated exactly as if
    the field were not there. *)
Theorem ignored_pc_id_is_no_pc_id request s v :
  request !! "pc_id" = Some v ->
  truthy v = false \/ (exists b, v = JBool b) \/ (exists n, v = JNum n) ->
  offer request s = offer (delete "pc_id" request) s.
Proof.
  intros Hreq Hv.
  assert (reuse_existing v s = (Ok false, s)) as Hnew.
  { unfold reuse_existing, in_pcs_map, ret.
    destruct Hv as [->|[[b ->]|[n ->]]]; [done|..];
      by destruct (truthy _). }
  unfold offer, bind.
  rewrite (dict_get_some _ _ _ _ Hreq), Hnew.
  rewrite (dict_get_none (delete "pc_id" request) "pc_id")
    by apply lookup_delete_eq.
  rewrite reuse_existing_absent. unfold getitem.
  by rewrite !lookup_delete_ne.
Qed.

(** The handler reads four fields of the request and nothing else: two
    requests that agree on [pc_id], [sdp], [type] and [restart_pc] are
    handled identically. *)
Theorem offer_reads_four_fields request request' s :
  request !! "pc_id" = request' !! "pc_id" ->
  request !! "sdp" = request' !! "sdp" ->
  request !! "type" = request' !! "type" ->
  request !! "restart_pc" = request' !! "restart_pc" ->
  offer request s = offer request' s.
Proof.
  intros Hid Hsdp Hty Hrestart. unfold offer, dict_get, getitem.
  by rewrite Hid, Hsdp, Hty, Hrestart.
Qed.

(** ** Failures after the handle exists *)

(** With no bot function loaded, a new-session offer whose handle
    initializes fails on the [assert]: by then the handle has been
    constructed and initialized and has its closed handler, but it gets no
    task, is not stored, and no answer is asked for. *)
Theorem missing_bot_function_abandons_handle request s sdp type e1 :
  run_example_func s = None ->
  reuse_existing (dict_get request "pc_id" JNull) s = (Ok false, s) ->
  request !! "sdp" = Some sdp -> request !! "type" = Some type ->
  initialize (next_conn s) sdp type
             (construct ice_servers (next_conn s) (engine s)) = (Ok tt, e1) ->
  (offer request s).1 = Raise AssertionError /\
  pcs_map (offer request s).2 = pcs_map s /\
  background_tasks (offer request s).2 = background_tasks s /\
  handlers (offer request s).2 = handlers s ++ [closed_handler (next_conn s)] /\
  next_conn (offer request s).2 = S (next_conn s) /\
  calls (offer request s).2
    = calls s ++ [CallConstruct ice_servers (next_conn s);
                  CallInitialize (next_conn s) sdp type] /\
  engine (offer request s).2 = e1.
Proof.
  intros Hf Hnew Hsdp Hty Hinit. unfold offer, bind. rewrite Hnew.
  unfold_offer. simpl. rewrite Hsdp, Hty. simpl. rewrite Hinit. simpl.
  rewrite Hf. simpl. by rewrite <- app_assoc.
Qed.

(** On the new-session branch the task is queued before the answer is asked
    for: when [get_answer] raises, the call fails and the registry is as
    before, yet the new handle already has its closed handler and its task
    in the task list. *)
Theorem answer_failure_after_dispatch request s sdp type f e1 e e2 :
  run_example_func s = Some f ->
  reuse_existing (dict_get request "pc_id" JNull) s = (Ok false, s) ->
  request !! "sdp" = Some sdp -> request !! "type" = Some type ->
  initialize (next_conn s) sdp type
             (construct ice_servers (next_conn s) (engine s)) = (Ok tt, e1) ->
  get_answer (next_conn s) e1 = (Raise e, e2) ->
  (offer request s).1 = Raise e /\
  pcs_map (offer request s).2 = pcs_map s /\
  background_tasks (offer request s).2
    = background_tasks s ++ [task_for f (next_conn s)] /\
  handlers (offer request s).2 = handlers s ++ [closed_handler (next_conn s)].
Proof.
  intros Hf Hnew Hsdp Hty Hinit Hans. unfold offer, bind. rewrite Hnew.
  unfold_offer. simpl. rewrite Hsdp, Hty. simpl. rewrite Hinit. simpl.
  rewrite Hf. simpl. rewrite Hans. simpl. by split_and!.
Qed.

(** Every exception that leaves [offer] is one of: [TypeError] from
    testing an unhashable [pc_id]; [KeyError] for a missing [sdp] or
    [type]; [AssertionError] when no bot function is loaded; or an
    exception raised by the engine's [renegotiate], [initialize] or
    [get_answer]. *)
Theorem offer_exceptions request s e t :
  offer request s = (Raise e, t) ->
  (e = TypeError /\ t = s /\
   reuse_existing (dict_get request "pc_id" JNull) s = (Raise TypeError, s)) \/
  (e = KeyError (JStr "sdp") /\ request !! "sdp" = None) \/
  (e = KeyError (JStr "type") /\ request !! "type" = None) \/
  (e = AssertionError /\ run_example_func s = None) \/
  (exists c sdp type restart_pc e0 e1,
     renegotiate c sdp type restart_pc e0 = (Raise e, e1)) \/
  (exists c sdp type e0 e1, initialize c sdp type e0 = (Raise e, e1)) \/
  (exists c e0 e1, get_answer c e0 = (Raise e, e1)).
Proof.
  intros Hrun. unfold offer, bind in Hrun.
  pose proof (reuse_existing_state (dict_get request "pc_id" JNull) s) as Hst.
  destruct (reuse_existing _ s) as [[[]|e0] s0] eqn:Hreuse;
    simpl in Hst; subst s0.
  - apply reuse_existing_true in Hreuse as (k & c & Hv & Hk & Hc).
    rewrite Hv in Hrun. unfold_offer. simpl in Hrun. rewrite Hc in Hrun.
    destruct (request !! "sdp") as [sdp|] eqn:Hsdp; simpl in Hrun;
      [|injection Hrun as <- <-; eauto 10].
    destruct (request !! "type") as [ty|] eqn:Hty; simpl in Hrun;
      [|injection Hrun as <- <-; eauto 10].
    destruct (renegotiate _ _ _ _ _) as [[[]|e1] e2] eqn:Hre; simpl in Hrun;
      [|injection Hrun as <- <-; do 4 right; left; eauto 10].
    destruct (get_answer _ _) as [[a|e3] e4] eqn:Hans; simpl in Hrun;
      [discriminate Hrun|].
    injection Hrun as <- <-. do 6 right. eauto.
  - unfold_offer. simpl in Hrun.
    destruct (request !! "sdp") as [sdp|] eqn:Hsdp; simpl in Hrun;
      [|injection Hrun as <- <-; eauto 10].
    destruct (request !! "type") as [ty|] eqn:Hty; simpl in Hrun;
      [|injection Hrun as <- <-; eauto 10].
    destruct (initialize _ _ _ _) as [[[]|e1] e2] eqn:Hinit; simpl in Hrun;
      [|injection Hrun as <- <-; do 5 right; left; eauto 10].
    destruct (run_example_func s) as [f|] eqn:Hf; simpl in Hrun;
      [|injection Hrun as <- <-; eauto 10].
    destruct (get_answer _ _) as [[a|e3] e4] eqn:Hans; simpl in Hrun;
      [discriminate Hrun|].
    injection Hrun as <- <-. do 6 right. eauto.
  - injection Hrun as <- <-. left. split_and!; [|done|].
    + unfold reuse_existing, in_pcs_map, ret in Hreuse.
      destruct (truthy _); [|discriminate Hreuse].
      destruct (dict_get _ _ _); by simplify_eq.
    + unfold reuse_existing, in_pcs_map, ret in Hreuse |- *.
      destruct (truthy _); [|discriminate Hreuse].
      destruct (dict_get _ _ _); by simplify_eq.
Qed.

(** ** Opening and closing a session *)

(** A new session whose identifier was not a key, closed again: if the
    handle's [pc_id] attribute is the identifier its answer carried, the
    closed event undoes the registry entry and the registry is as it was
    before the offer. *)
Theorem session_round_trip request s a t :
  reuse_existing (dict_get request "pc_id" JNull) s = (Ok false, s) ->
  offer request s = (Ok a, t) ->
  pcs_map s !! ans_pc_id a = None ->
  pc_id (next_conn s) (engine t) = ans_pc_id a ->
  (emit (next_conn s) "closed" t).1 = Ok tt /\
  pcs_map (emit (next_conn s) "closed" t).2 = pcs_map s.
Proof.
  intros Hnew Hrun Hfresh Hid.
  destruct (new_session_run request s Hnew) as (_ & _ & Hok).
  rewrite Hrun in Hok. simpl in Hok.
  destruct (Hok a eq_refl)
    as (sdp & ty & f & e1 & _ & _ & _ & _ & _ & Hmap & _ & Hh & _).
  rewrite emit_run.
  rewrite (registered_elem _ _ HandleDisconnected).
  - simpl. rewrite Hid, Hmap. split; [done|]. by apply delete_insert_id.
  - rewrite Hh. apply elem_of_app. right. by apply list_elem_of_singleton.
Qed.

(** A closed event changes nothing but the registry: callbacks stay
    registered, queued tasks stay queued, no object is created and no call
    into the engine is made; and the registry is as before or without the
    entry keyed by the handle's identifier. *)
Theorem closed_only_touches_registry c s :
  (emit c "closed" s).1 = Ok tt /\
  handlers (emit c "closed" s).2 = handlers s /\
  background_tasks (emit c "closed" s).2 = background_tasks s /\
  next_conn (emit c "closed" s).2 = next_conn s /\
  calls (emit c "closed" s).2 = calls s /\
  engine (emit c "closed" s).2 = engine s /\
  run_example_func (emit c "closed" s).2 = run_example_func s /\
  (pcs_map (emit c "closed" s).2 = pcs_map s \/
   pcs_map (emit c "closed" s).2 = delete (pc_id c (engine s)) (pcs_map s)).
Proof.
  rewrite emit_run. simpl.
  destruct (registered _ _ _); simpl; split_and!; auto.
Qed.


End Properties.

(** * The handler on the toy engine *)

Example first_offer_runs :
  offer first_offer s0 = (Ok (toy_answer "pc-0"), s1) /\
  pcs_map s1 !! "pc-0" = Some 0 /\ size (pcs_map s1) = 1 /\
  background_tasks s1
    = [ {| task_func := "run_example"; task_conn := 0; task_args := args |} ] /\
  calls s1 = [CallConstruct ice_servers 0;
              CallInitialize 0 (JStr "v=0") (JStr "offer"); CallGetAnswer 0].
Proof. vm_compute. repeat split. Qed.

Example second_offer_renegotiates :
  (offer (offer_for "pc-0") s1).1 = Ok (toy_answer "pc-0") /\
  size (pcs_map (offer (offer_for "pc-0") s1).2) = 1 /\
  background_tasks (offer (offer_for "pc-0") s1).2 = background_tasks s1 /\
  last (calls (offer (offer_for "pc-0") s1).2) = Some (CallGetAnswer 0).
Proof. vm_compute. repeat split. Qed.

Example nameless_first_offer :
  offer first_offer n0 = (Ok (toy_answer ""), n1) /\ pcs_map n1 !! "" = Some 0.
Proof. vm_compute. repeat split. Qed.

(** ** Where the handler differs from the specification *)

(** C1 fails: with ["pc-0"] the only key of the registry, an offer for
    ["pc-7"] is answered with status 200, a second handle is created and
    stored (under its own identifier ["pc-1"]) and a second task is
    queued. *)
Lemma unknown_pc_id_not_rejected :
  offer_for "pc-7" !! "pc_id" = Some (JStr "pc-7") /\
  pcs_map s1 !! "pc-7" = None /\
  (offer (offer_for "pc-7") s1).1 = Ok (toy_answer "pc-1") /\
  is_client_error (http_status (offer (offer_for "pc-7") s1).1) = false /\
  pcs_map (offer (offer_for "pc-7") s1).2 <> pcs_map s1 /\
  pcs_map (offer (offer_for "pc-7") s1).2 !! "pc-1" = Some 1 /\
  next_conn (offer (offer_for "pc-7") s1).2 = S (next_conn s1) /\
  length (background_tasks (offer (offer_for "pc-7") s1).2)
    = S (length (background_tasks s1)).
Proof.
  split_and!; try (vm_compute; reflexivity).
  intros Heq. apply (f_equal (fun m : gmap string conn => m !! "pc-1")) in Heq.
  vm_compute in Heq. discriminate Heq.
Qed.

(** C2 fails for the empty identifier: after a first offer under an engine
    that names its handle [""], the registry has the key [""]; an offer
    with [pc_id = ""] still constructs a second handle and queues a second
    task, and nothing is renegotiated. *)
Lemma empty_pc_id_key_creates_session :
  offer_for "" !! "pc_id" = Some (JStr "") /\
  is_Some (pcs_map n1 !! "") /\
  next_conn (offer (offer_for "") n1).2 = S (next_conn n1) /\
  background_tasks (offer (offer_for "") n1).2
    = background_tasks n1 ++
        [ {| task_func := "run_example"; task_conn := 1; task_args := args |} ] /\
  calls (offer (offer_for "") n1).2
    = calls n1 ++ [CallConstruct ice_servers 1;
                   CallInitialize 1 (JStr "v=0") (JStr "offer");
                   CallGetAnswer 1].
Proof.
  split_and!; try (vm_compute; reflexivity).
  exists 0. vm_compute. reflexivity.
Qed.

(** C3 fails: a request without [sdp] raises [KeyError] in the handler and
    the response is a 500, not a 4xx. *)
Lemma missing_sdp_not_client_error :
  offer_without_sdp !! "sdp" = None /\
  (offer offer_without_sdp s0).1 = Raise (KeyError (JStr "sdp")) /\
  http_status (offer offer_without_sdp s0).1 = 500 /\
  is_client_error (http_status (offer offer_without_sdp s0).1) = false.
Proof. split_and!; vm_compute; reflexivity. Qed.

(** ** Instances of the theorems *)

Lemma unknown_pc_id_starts_new_session_witness :
  offer_for "pc-7" !! "pc_id" = Some (JStr "pc-7") /\
  pcs_map s1 !! "pc-7" = None /\
  next_conn (offer (offer_for "pc-7") s1).2 = S (next_conn s1).
Proof.
  assert (offer_for "pc-7" !! "pc_id" = Some (JStr "pc-7")) as Hreq
    by (vm_compute; reflexivity).
  assert (pcs_map s1 !! "pc-7" = None) as Hout by (vm_compute; reflexivity).
  split_and!; [exact Hreq|exact Hout|].
  exact (proj1 (unknown_pc_id_starts_new_session _ _ _ Hreq Hout)).
Defined.

Lemma renegotiation_never_redispatches_witness :
  "pc-0" <> "" /\
  is_Some (pcs_map s1 !! "pc-0") /\
  background_tasks
    (offers [offer_for "pc-0"; offer_for "pc-0"; bad_offer_for "pc-0"] s1).2
    = background_tasks s1.
Proof.
  assert ("pc-0" <> "") as Hk by discriminate.
  assert (is_Some (pcs_map s1 !! "pc-0")) as Hin
    by (exists 0; vm_compute; reflexivity).
  split_and!; [exact Hk|exact Hin|].
  refine (proj1 (proj2 (renegotiation_never_redispatches
            "pc-0" [offer_for "pc-0"; offer_for "pc-0"; bad_offer_for "pc-0"]
            s1 Hk Hin _))).
  repeat constructor.
Defined.

Lemma missing_field_is_server_error_witness :
  offer_without_sdp !! "sdp" = None /\
  http_status (offer offer_without_sdp s0).1 = 500 /\
  pcs_map (offer offer_without_sdp s0).2 = pcs_map s0.
Proof.
  assert (offer_without_sdp !! "sdp" = None) as Hm by (vm_compute; reflexivity).
  pose proof (missing_field_is_server_error offer_without_sdp s0 (or_introl Hm))
    as (_ & Hst & _ & _ & _ & Hmap & _).
  split_and!; [exact Hm|exact Hst|exact Hmap].
Defined.

Lemma answer_id_is_registered_witness :
  offer first_offer s0 = (Ok (toy_answer "pc-0"), s1) /\
  exists c, pcs_map s1 !! "pc-0" = Some c.
Proof.
  assert (offer first_offer s0 = (Ok (toy_answer "pc-0"), s1)) as Hrun
    by (vm_compute; reflexivity).
  split; [exact Hrun|].
  destruct (answer_id_is_registered _ _ _ _ Hrun) as (c & _ & _ & Hc & _).
  exists c. exact Hc.
Defined.

Lemma negotiation_error_leaves_registry_witness :
  negotiation_raises bad_first_offer s1
    (EngineError "invalid session description") /\
  negotiation_raises (bad_offer_for "pc-0") s1
    (EngineError "invalid session description") /\
  pcs_map (offer bad_first_offer s1).2 = pcs_map s1 /\
  pcs_map (offer (bad_offer_for "pc-0") s1).2 = pcs_map s1.
Proof.
  assert (negotiation_raises bad_first_offer s1
            (EngineError "invalid session description")) as Hinit.
  { eapply (initialize_raises _ _ _ (JNum 0) (JStr "offer"));
      vm_compute; reflexivity. }
  assert (negotiation_raises (bad_offer_for "pc-0") s1
            (EngineError "invalid session description")) as Hre.
  { eapply (renegotiate_raises _ _ _ "pc-0" 0 (JNum 0) (JStr "offer"));
      try (vm_compute; reflexivity). discriminate. }
  split_and!; [exact Hinit|exact Hre|..].
  - exact (proj1 (proj2 (proj2 (negotiation_error_leaves_registry _ _ _ Hinit)))).
  - exact (proj1 (proj2 (proj2 (negotiation_error_leaves_registry _ _ _ Hre)))).
Defined.

Lemma renegotiate_arguments_witness :
  offer_for "pc-0" !! "pc_id" = Some (JStr "pc-0") /\
  pcs_map s1 !! "pc-0" = Some 0 /\
  offer_for "pc-0" !! "restart_pc" = Some (JBool true) /\
  renegotiate 0 (JStr "v=0") (JStr "offer") (JBool true) (engine s1)
    = (Ok tt, engine s1) /\
  (exists rest : list call,
     calls (offer (offer_for "pc-0") s1).2
       = calls s1 ++
           CallRenegotiate 0 (JStr "v=0") (JStr "offer") (JBool true) :: rest) /\
  get_answer 0 (engine s1)
    = ((offer (offer_for "pc-0") s1).1, engine (offer (offer_for "pc-0") s1).2).
Proof.
  assert (offer_for "pc-0" !! "pc_id" = Some (JStr "pc-0")) as Hreq
    by (vm_compute; reflexivity).
  assert ("pc-0" <> "") as Hk by discriminate.
  assert (pcs_map s1 !! "pc-0" = Some 0) as Hc by (vm_compute; reflexivity).
  assert (offer_for "pc-0" !! "sdp" = Some (JStr "v=0")) as Hsdp
    by (vm_compute; reflexivity).
  assert (offer_for "pc-0" !! "type" = Some (JStr "offer")) as Hty
    by (vm_compute; reflexivity).
  assert (offer_for "pc-0" !! "restart_pc" = Some (JBool true)) as Hflag
    by (vm_compute; reflexivity).
  assert (renegotiate 0 (JStr "v=0") (JStr "offer") (JBool true) (engine s1)
          = (Ok tt, engine s1)) as Hre by (vm_compute; reflexivity).
  destruct (renegotiate_arguments _ _ _ _ _ _ Hreq Hk Hc Hsdp Hty)
    as (flag & rest & Hcalls & Hsome & _ & _ & _ & _ & Hok).
  rewrite (Hsome _ Hflag) in Hcalls, Hok.
  split_and!; [exact Hreq|exact Hc|exact Hflag|exact Hre| |].
  - exists rest. exact Hcalls.
  - exact (proj1 (Hok _ Hre)).
Defined.

Lemma empty_pc_id_starts_new_session_witness :
  offer_for "" !! "pc_id" = Some (JStr "") /\
  pcs_map n1 !! "" = Some 0 /\
  next_conn (offer (offer_for "") n1).2 = S (next_conn n1) /\
  new_session_result (offer_for "") n1 (toy_answer "") (offer (offer_for "") n1).2.
Proof.
  assert (offer_for "" !! "pc_id" = Some (JStr "")) as Hreq
    by (vm_compute; reflexivity).
  split_and!; [exact Hreq|vm_compute; reflexivity|..].
  - exact (proj1 (proj2 (empty_pc_id_starts_new_session _ n1 Hreq))).
  - apply (proj2 (proj2 (proj2 (empty_pc_id_starts_new_session _ n1 Hreq)))).
    vm_compute. reflexivity.
Defined.

Lemma closed_handler_removes_own_entry_witness :
  handlers s1 = [(0, "closed", HandleDisconnected)] /\
  pcs_map s1 !! "pc-0" = Some 0 /\
  pcs_map (emit 0 "closed" s1).2 = delete "pc-0" (pcs_map s1) /\
  pcs_map (emit 0 "closed" s1).2 !! "pc-0" = None.
Proof.
  pose proof (closed_handler_removes_own_entry first_offer s0
                (JStr "v=0") (JStr "offer") (engine s1)) as Hthm.
  destruct Hthm as [Hreg Hfire]; try (vm_compute; reflexivity).
  assert ((next_conn s0, "closed", HandleDisconnected) ∈ handlers s1) as Hin.
  { unfold s1. rewrite Hreg. apply elem_of_app. right. constructor. }
  destruct (Hfire s1 Hin) as (_ & Hdel & Hgone).
  split_and!; [exact Hreg|vm_compute; reflexivity|exact Hdel|exact Hgone].
Defined.

Lemma cleanup_idempotent_witness :
  pcs_map s1 !! "pc-0" = Some 0 /\
  (emit_times 3 0 "closed" s1).1 = Ok tt /\
  emit_times 3 0 "closed" s1 = emit 0 "closed" s1 /\
  size (pcs_map (emit_times 3 0 "closed" s1).2) = 0.
Proof.
  destruct (cleanup_idempotent 2 0 s1) as (_ & Hsame & _).
  destruct (cleanup_idempotent 3 0 s1) as (Hok & _).
  split_and!; [vm_compute; reflexivity|exact Hok|exact Hsame|].
  vm_compute. reflexivity.
Defined.

Lemma fresh_sessions_grow_witness :
  fresh_sessions [first_offer; first_offer; first_offer] s0 /\
  size (pcs_map (offers [first_offer; first_offer; first_offer] s0).2) = 3 /\
  next_conn (offers [first_offer; first_offer; first_offer] s0).2 = 3.
Proof.
  assert (fresh_sessions [first_offer; first_offer; first_offer] s0) as Hrun.
  { simpl. split_and!; try (vm_compute; reflexivity).
    - exists (toy_answer "pc-0"). split; vm_compute; reflexivity.
    - exists (toy_answer "pc-1"). split; vm_compute; reflexivity.
    - exists (toy_answer "pc-2"). split; vm_compute; reflexivity. }
  destruct (fresh_sessions_grow _ _ Hrun)
    as (answers & _ & _ & _ & _ & _ & Hsize & Hnext & _).
  split_and!; [exact Hrun|exact Hsize|exact Hnext].
Defined.

(** ** Instances of the further theorems *)


Lemma engine_calls_in_order_witness :
  calls (run sample_run (start (Some "run_example") numbering))
    = [CallConstruct ice_servers 0;
       CallInitialize 0 (JStr "v=0") (JStr "offer"); CallGetAnswer 0]
      ++ CallRenegotiate 0 (JStr "v=0") (JStr "offer") (JBool true)
      :: [CallGetAnswer 0] /\
  exists sdp type,
    CallInitialize 0 sdp type
      ∈ [CallConstruct ice_servers 0;
         CallInitialize 0 (JStr "v=0") (JStr "offer"); CallGetAnswer 0].
Proof.
  assert (calls (run sample_run (start (Some "run_example") numbering))
          = [CallConstruct ice_servers 0;
             CallInitialize 0 (JStr "v=0") (JStr "offer"); CallGetAnswer 0]
            ++ CallRenegotiate 0 (JStr "v=0") (JStr "offer") (JBool true)
            :: [CallGetAnswer 0]) as Hcalls by (vm_compute; reflexivity).
  split; [exact Hcalls|].
  exact (engine_calls_in_order _ _ _ _ _ _ Hcalls).
Defined.

Lemma renegotiation_keeps_handle_witness :
  offer_for "pc-0" !! "pc_id" = Some (JStr "pc-0") /\
  pcs_map s1 !! "pc-0" = Some 0 /\
  (offer (offer_for "pc-0") s1).1 = Ok (toy_answer "pc-0") /\
  pcs_map (offer (offer_for "pc-0") s1).2 = pcs_map s1.
Proof.
  assert (offer_for "pc-0" !! "pc_id" = Some (JStr "pc-0")) as Hreq
    by (vm_compute; reflexivity).
  assert ("pc-0" <> "") as Hk by discriminate.
  assert (pcs_map s1 !! "pc-0" = Some 0) as Hc by (vm_compute; reflexivity).
  assert (offer (offer_for "pc-0") s1
          = (Ok (toy_answer "pc-0"), (offer (offer_for "pc-0") s1).2)) as Hrun
    by (vm_compute; reflexivity).
  split_and!; [exact Hreq|exact Hc|vm_compute; reflexivity|].
  destruct (renegotiation_keeps_handle _ _ _ _ _ _ Hreq Hk Hc Hrun)
    as (_ & _ & Hsame & _).
  exact (Hsame eq_refl).
Defined.

Lemma unhashable_pc_id_raises_witness :
  offer_with_pc_id (JArr [JStr "pc-0"]) !! "pc_id" = Some (JArr [JStr "pc-0"]) /\
  offer (offer_with_pc_id (JArr [JStr "pc-0"])) s1 = (Raise TypeError, s1).
Proof.
  assert (offer_with_pc_id (JArr [JStr "pc-0"]) !! "pc_id"
          = Some (JArr [JStr "pc-0"])) as Hreq by (vm_compute; reflexivity).
  split; [exact Hreq|].
  apply (unhashable_pc_id_raises _ _ _ Hreq). left. by exists (JStr "pc-0"), [].
Defined.

Lemma ignored_pc_id_is_no_pc_id_witness :
  offer_with_pc_id (JNum 7) !! "pc_id" = Some (JNum 7) /\
  offer (offer_with_pc_id (JNum 7)) s1
    = offer (delete "pc_id" (offer_with_pc_id (JNum 7))) s1.
Proof.
  assert (offer_with_pc_id (JNum 7) !! "pc_id" = Some (JNum 7)) as Hreq
    by (vm_compute; reflexivity).
  split; [exact Hreq|].
  apply (ignored_pc_id_is_no_pc_id _ _ _ Hreq). right. right. by exists 7%Z.
Defined.

Lemma offer_reads_four_fields_witness :
  first_offer !! "sdp" = first_offer_with_extra !! "sdp" /\
  first_offer_with_extra !! "user" = Some (JStr "someone") /\
  offer first_offer s0 = offer first_offer_with_extra s0.
Proof.
  split_and!; [vm_compute; reflexivity..|].
  apply offer_reads_four_fields; vm_compute; reflexivity.
Defined.

Lemma missing_bot_function_abandons_handle_witness :
  run_example_func idle = None /\
  (offer first_offer idle).1 = Raise AssertionError /\
  handlers (offer first_offer idle).2 = [closed_handler 0] /\
  pcs_map (offer first_offer idle).2 = pcs_map idle.
Proof.
  pose proof (missing_bot_function_abandons_handle first_offer idle
                (JStr "v=0") (JStr "offer")
                (engine (offer first_offer idle).2)) as Hthm.
  destruct Hthm as (Hr & Hmap & _ & Hh & _); try (vm_compute; reflexivity).
  split_and!; [vm_compute; reflexivity|exact Hr|exact Hh|exact Hmap].
Defined.

Lemma answer_failure_after_dispatch_witness :
  run_example_func m0 = Some "run_example" /\
  (offer first_offer m0).1 = Raise (EngineError "no answer") /\
  background_tasks (offer first_offer m0).2 = [task_for "run_example" 0] /\
  pcs_map (offer first_offer m0).2 = pcs_map m0.
Proof.
  pose proof (answer_failure_after_dispatch first_offer m0
                (JStr "v=0") (JStr "offer") "run_example"
                {| mute_live := [0] |} (EngineError "no answer")
                {| mute_live := [0] |}) as Hthm.
  destruct Hthm as (Hr & Hmap & Hb & _); try (vm_compute; reflexivity).
  split_and!; [vm_compute; reflexivity|exact Hr|exact Hb|exact Hmap].
Defined.

Lemma offer_exceptions_witness :
  offer offer_without_sdp s0
    = (Raise (KeyError (JStr "sdp")), (offer offer_without_sdp s0).2) /\
  offer_without_sdp !! "sdp" = None.
Proof.
  assert (offer offer_without_sdp s0
          = (Raise (KeyError (JStr "sdp")), (offer offer_without_sdp s0).2))
    as Hrun by (vm_compute; reflexivity).
  split; [exact Hrun|].
  destruct (offer_exceptions _ _ _ _ Hrun)
    as [(He & _)|[(_ & Hm)|[(He & _)|[(He & _)|_]]]];
    try discriminate He; try exact Hm.
  vm_compute. reflexivity.
Defined.

Lemma session_round_trip_witness :
  offer first_offer s0 = (Ok (toy_answer "pc-0"), s1) /\
  pcs_map s1 !! "pc-0" = Some 0 /\
  pcs_map (emit 0 "closed" s1).2 = pcs_map s0.
Proof.
  assert (offer first_offer s0 = (Ok (toy_answer "pc-0"), s1)) as Hrun
    by (vm_compute; reflexivity).
  split_and!; [exact Hrun|vm_compute; reflexivity|].
  refine (proj2 (session_round_trip first_offer s0 (toy_answer "pc-0") s1
                   _ Hrun _ _)); vm_compute; reflexivity.
Defined.

